(** * The [oxide_image] resource of terraform-provider-oxide

    A shallow embedding of [internal/provider/resource_image.go]: the
    resource model, its schema, and the four lifecycle handlers
    [Create], [Read], [Update] and [Delete], followed by the properties
    the specification states about them.

    The Go handlers receive a request and a pointer to a response that the
    host has already populated; they mutate the response and talk to the
    remote API through [r.client].  Here a handler is a computation in a
    small monad whose state is the response under construction together
    with the log of the remote calls issued so far, and which can leave
    the handler early (Go's [return] after a diagnostic). *)

From Stdlib Require Import String Ascii List ZArith Bool Lia DecimalString.
Import ListNotations.

Set Implicit Arguments.
Local Open Scope string_scope.
Local Open Scope Z_scope.

(** ** Go helpers *)

(** [strings.Contains(s, substr)]. *)
Fixpoint Contains (s substr : string) : bool :=
  prefix substr s ||
  match s with
  | EmptyString => false
  | String _ t => Contains t substr
  end.

(** The conversion [int64(x)] of an integer held in 64 bits: the value is
    reduced to the signed range, wrapping around. *)
Definition int64 (x : Z) : Z := (x + 2 ^ 63) mod 2 ^ 64 - 2 ^ 63.

(** ** terraform-plugin-framework value types

    Every framework value is null, unknown, or known. *)
Module types.

Inductive Value (A : Type) : Type :=
| Null
| Unknown
| Known (a : A).
Arguments Null {A}.
Arguments Unknown {A}.

Definition IsNull {A} (v : Value A) : bool :=
  match v with Null => true | _ => false end.

Definition IsUnknown {A} (v : Value A) : bool :=
  match v with Unknown => true | _ => false end.

Definition Equal {A} (eqb : A -> A -> bool) (v w : Value A) : bool :=
  match v, w with
  | Null, Null => true
  | Unknown, Unknown => true
  | Known a, Known b => eqb a b
  | _, _ => false
  end.

Definition Int64 := Value Z.
Definition Int64Value (i : Z) : Int64 := Known i.
(** [ValueInt64] is 0 for null and unknown. *)
Definition ValueInt64 (v : Int64) : Z :=
  match v with Known i => i | _ => 0 end.
Definition Int64Equal : Int64 -> Int64 -> bool := Equal Z.eqb.

Definition StringEqual : Value string -> Value string -> bool :=
  Equal String.eqb.
(** [ValueString] is the empty string for null and unknown. *)
Definition ValueString (v : Value string) : string :=
  match v with Known s => s | _ => EmptyString end.
Definition StringValue (s : string) : Value string := Known s.
Definition String := Value string.

End types.

(** ** Diagnostics *)
Module diag.

Inductive Severity := SeverityError | SeverityWarning.

Definition Severity_eqb (a b : Severity) : bool :=
  match a, b with
  | SeverityError, SeverityError => true
  | SeverityWarning, SeverityWarning => true
  | _, _ => false
  end.

(** A diagnostic; [Path] is the attribute path of an attribute
    diagnostic (those the schema validators produce). *)
Record Diagnostic := {
  Severity_ : Severity;
  Summary : string;
  Detail : string;
  Path : option string
}.

Definition NewErrorDiagnostic (summary detail : string) : Diagnostic :=
  {| Severity_ := SeverityError; Summary := summary; Detail := detail;
     Path := None |}.

Definition NewAttributeErrorDiagnostic (path summary detail : string)
  : Diagnostic :=
  {| Severity_ := SeverityError; Summary := summary; Detail := detail;
     Path := Some path |}.

Definition Diagnostic_Equal (d e : Diagnostic) : bool :=
  Severity_eqb (Severity_ d) (Severity_ e)
  && String.eqb (Summary d) (Summary e)
  && String.eqb (Detail d) (Detail e)
  && match Path d, Path e with
     | None, None => true
     | Some p, Some q => String.eqb p q
     | _, _ => false
     end.

Definition Diagnostics := list Diagnostic.

Definition Contains (diags : Diagnostics) (d : Diagnostic) : bool :=
  existsb (Diagnostic_Equal d) diags.

(** [Append] adds the diagnostics that are not already present. *)
Fixpoint Append (diags in_ : Diagnostics) : Diagnostics :=
  match in_ with
  | [] => diags
  | d :: rest =>
      if Contains diags d then Append diags rest
      else Append (diags ++ [d])%list rest
  end.

Definition AddError (diags : Diagnostics) (summary detail : string)
  : Diagnostics :=
  Append diags [NewErrorDiagnostic summary detail].

Definition IsError (d : Diagnostic) : bool :=
  Severity_eqb (Severity_ d) SeverityError.

Definition HasError (diags : Diagnostics) : bool := existsb IsError diags.

End diag.

(** ** The part of the oxide SDK the resource uses

    The SDK is a dependency of the repository; the records carry the
    fields the handlers read and write.  [Time] stands for [time.Time]
    and [error] for Go's [error] values. *)
Module oxide.

(** [ImageSourceTypeUnset] is the zero value of the string-typed
    enumeration, which [oxide.ImageSource{}] starts with. *)
Inductive ImageSourceType :=
| ImageSourceTypeUnset
| ImageSourceTypeUrl
| ImageSourceTypeSnapshot
| ImageSourceTypeYouCanBootAnythingAsLongAsItsAlpine.

(** The conversion [oxide.BlockSize(x)] from an [int64]. *)
Definition BlockSize (x : Z) : Z := x.

Record ImageSource := {
  ImageSource_Id : string;
  ImageSource_Type : ImageSourceType;
  ImageSource_BlockSize : Z
}.

Definition ImageSource_zero : ImageSource :=
  {| ImageSource_Id := EmptyString;
     ImageSource_Type := ImageSourceTypeUnset;
     ImageSource_BlockSize := 0 |}.

Record ImageCreate := {
  ImageCreate_Description : string;
  ImageCreate_Name : string;
  ImageCreate_Os : string;
  ImageCreate_Version : string;
  ImageCreate_Source : ImageSource
}.

Record ImageCreateParams := {
  Project : string;
  Body : ImageCreate
}.

Record ImageViewParams := {
  ImageViewParams_Image : string
}.

Record Digest := {
  Digest_Type : string;
  Digest_Value : string
}.

Record Image (Time : Type) := {
  Image_BlockSize : Z;
  Image_Description : string;
  Image_Digest : Digest;
  Image_Id : string;
  Image_Name : string;
  Image_Os : string;
  Image_ProjectId : string;
  Image_Size : Z;
  Image_TimeCreated : Time;
  Image_TimeModified : Time;
  Image_Url : string;
  Image_Version : string
}.

(** The two client methods the resource calls; each returns the remote
    object or an error. *)
Record Client (Time error : Type) := {
  Client_ImageCreate : ImageCreateParams -> Image Time + error;
  Client_ImageView : ImageViewParams -> Image Time + error
}.

End oxide.

(** A remote call, as recorded in the log of a handler run. *)
Inductive RemoteCall :=
| CallImageCreate (params : oxide.ImageCreateParams)
| CallImageView (params : oxide.ImageViewParams).

(** ** What the handlers take from their environment

    [Error] is the method of Go's [error]; [Time_String] is
    [time.Time.String]; [ParseDuration] is [time.ParseDuration], giving a
    duration or the message of its error; [is404] and [defaultTimeout]
    are helpers of the provider package that this file calls. *)
Record Runtime := {
  Time : Type;
  error : Type;
  Error : error -> string;
  Time_String : Time -> string;
  ParseDuration : string -> Z + string;
  is404 : error -> bool;
  defaultTimeout : Z
}.

(** [%q] of [fmt.Sprintf] on a string without special characters: the
    string between double quotes. *)
Definition fmt_q (s : string) : string :=
  String (ascii_of_nat 34) (s ++ String (ascii_of_nat 34) EmptyString).

(** ** terraform-plugin-framework-timeouts *)
Module timeouts.

(** [timeouts.Value] wraps an object whose attributes are strings;
    [Attributes] is the attribute map, empty for a null or unknown
    object. *)
Definition Value := types.Value (list (string * types.String)).

Definition Attributes (t : Value) : list (string * types.String) :=
  match t with types.Known m => m | _ => [] end.

Fixpoint lookup (name : string) (m : list (string * types.String))
  : option types.String :=
  match m with
  | [] => None
  | (k, v) :: rest => if String.eqb k name then Some v else lookup name rest
  end.

Definition attributeNameCreate : string := "create".
Definition attributeNameRead : string := "read".

(** [getTimeout]: the default when the attribute is missing, null or
    unknown; the parsed duration when it parses; the default and an
    error diagnostic when it does not. *)
Definition getTimeout (rt : Runtime) (t : Value) (timeoutName : string)
    (defaultTimeout : Z) : Z * diag.Diagnostics :=
  match lookup timeoutName (Attributes t) with
  | None => (defaultTimeout, [])
  | Some value =>
      if types.IsNull value || types.IsUnknown value
      then (defaultTimeout, [])
      else
        match ParseDuration rt (types.ValueString value) with
        | inr err =>
            (defaultTimeout,
             [diag.NewErrorDiagnostic "Timeout Cannot Be Parsed"
                ("timeout for " ++ fmt_q timeoutName
                   ++ " cannot be parsed, " ++ err)])
        | inl createTimeout => (createTimeout, [])
        end
  end.

Definition Create (rt : Runtime) (t : Value) (defaultTimeout : Z) :=
  getTimeout rt t attributeNameCreate defaultTimeout.

Definition Read (rt : Runtime) (t : Value) (defaultTimeout : Z) :=
  getTimeout rt t attributeNameRead defaultTimeout.

End timeouts.

(** ** The resource model *)

Record imageResourceDigestModel := {
  Type_ : types.String;
  Value : types.String
}.

Record imageResourceModel := {
  BlockSize : types.Int64;
  Description : types.String;
  Digest : types.Value imageResourceDigestModel;
  ID : types.String;
  Name : types.String;
  OS : types.String;
  ProjectID : types.String;
  Size : types.Int64;
  SourceSnapshotID : types.String;
  SourceURL : types.String;
  TimeCreated : types.String;
  TimeModified : types.String;
  Version : types.String;
  Timeouts : timeouts.Value
}.

(** Assignments to the fields of a model ([plan.ID = ...]). *)
Definition set_BlockSize (v : types.Int64) (m : imageResourceModel) :=
  {| BlockSize := v; Description := Description m; Digest := Digest m;
     ID := ID m; Name := Name m; OS := OS m; ProjectID := ProjectID m;
     Size := Size m; SourceSnapshotID := SourceSnapshotID m;
     SourceURL := SourceURL m; TimeCreated := TimeCreated m;
     TimeModified := TimeModified m; Version := Version m;
     Timeouts := Timeouts m |}.

Definition set_Description (v : types.String) (m : imageResourceModel) :=
  {| BlockSize := BlockSize m; Description := v; Digest := Digest m;
     ID := ID m; Name := Name m; OS := OS m; ProjectID := ProjectID m;
     Size := Size m; SourceSnapshotID := SourceSnapshotID m;
     SourceURL := SourceURL m; TimeCreated := TimeCreated m;
     TimeModified := TimeModified m; Version := Version m;
     Timeouts := Timeouts m |}.

Definition set_Digest (v : types.Value imageResourceDigestModel)
    (m : imageResourceModel) :=
  {| BlockSize := BlockSize m; Description := Description m; Digest := v;
     ID := ID m; Name := Name m; OS := OS m; ProjectID := ProjectID m;
     Size := Size m; SourceSnapshotID := SourceSnapshotID m;
     SourceURL := SourceURL m; TimeCreated := TimeCreated m;
     TimeModified := TimeModified m; Version := Version m;
     Timeouts := Timeouts m |}.

Definition set_ID (v : types.String) (m : imageResourceModel) :=
  {| BlockSize := BlockSize m; Description := Description m;
     Digest := Digest m; ID := v; Name := Name m; OS := OS m;
     ProjectID := ProjectID m; Size := Size m;
     SourceSnapshotID := SourceSnapshotID m; SourceURL := SourceURL m;
     TimeCreated := TimeCreated m; TimeModified := TimeModified m;
     Version := Version m; Timeouts := Timeouts m |}.

Definition set_Name (v : types.String) (m : imageResourceModel) :=
  {| BlockSize := BlockSize m; Description := Description m;
     Digest := Digest m; ID := ID m; Name := v; OS := OS m;
     ProjectID := ProjectID m; Size := Size m;
     SourceSnapshotID := SourceSnapshotID m; SourceURL := SourceURL m;
     TimeCreated := TimeCreated m; TimeModified := TimeModified m;
     Version := Version m; Timeouts := Timeouts m |}.

Definition set_OS (v : types.String) (m : imageResourceModel) :=
  {| BlockSize := BlockSize m; Description := Description m;
     Digest := Digest m; ID := ID m; Name := Name m; OS := v;
     ProjectID := ProjectID m; Size := Size m;
     SourceSnapshotID := SourceSnapshotID m; SourceURL := SourceURL m;
     TimeCreated := TimeCreated m; TimeModified := TimeModified m;
     Version := Version m; Timeouts := Timeouts m |}.

Definition set_ProjectID (v : types.String) (m : imageResourceModel) :=
  {| BlockSize := BlockSize m; Description := Description m;
     Digest := Digest m; ID := ID m; Name := Name m; OS := OS m;
     ProjectID := v; Size := Size m;
     SourceSnapshotID := SourceSnapshotID m; SourceURL := SourceURL m;
     TimeCreated := TimeCreated m; TimeModified := TimeModified m;
     Version := Version m; Timeouts := Timeouts m |}.

Definition set_Size (v : types.Int64) (m : imageResourceModel) :=
  {| BlockSize := BlockSize m; Description := Description m;
     Digest := Digest m; ID := ID m; Name := Name m; OS := OS m;
     ProjectID := ProjectID m; Size := v;
     SourceSnapshotID := SourceSnapshotID m; SourceURL := SourceURL m;
     TimeCreated := TimeCreated m; TimeModified := TimeModified m;
     Version := Version m; Timeouts := Timeouts m |}.

Definition set_SourceURL (v : types.String) (m : imageResourceModel) :=
  {| BlockSize := BlockSize m; Description := Description m;
     Digest := Digest m; ID := ID m; Name := Name m; OS := OS m;
     ProjectID := ProjectID m; Size := Size m;
     SourceSnapshotID := SourceSnapshotID m; SourceURL := v;
     TimeCreated := TimeCreated m; TimeModified := TimeModified m;
     Version := Version m; Timeouts := Timeouts m |}.

Definition set_TimeCreated (v : types.String) (m : imageResourceModel) :=
  {| BlockSize := BlockSize m; Description := Description m;
     Digest := Digest m; ID := ID m; Name := Name m; OS := OS m;
     ProjectID := ProjectID m; Size := Size m;
     SourceSnapshotID := SourceSnapshotID m; SourceURL := SourceURL m;
     TimeCreated := v; TimeModified := TimeModified m;
     Version := Version m; Timeouts := Timeouts m |}.

Definition set_TimeModified (v : types.String) (m : imageResourceModel) :=
  {| BlockSize := BlockSize m; Description := Description m;
     Digest := Digest m; ID := ID m; Name := Name m; OS := OS m;
     ProjectID := ProjectID m; Size := Size m;
     SourceSnapshotID := SourceSnapshotID m; SourceURL := SourceURL m;
     TimeCreated := TimeCreated m; TimeModified := v;
     Version := Version m; Timeouts := Timeouts m |}.

Definition set_Version (v : types.String) (m : imageResourceModel) :=
  {| BlockSize := BlockSize m; Description := Description m;
     Digest := Digest m; ID := ID m; Name := Name m; OS := OS m;
     ProjectID := ProjectID m; Size := Size m;
     SourceSnapshotID := SourceSnapshotID m; SourceURL := SourceURL m;
     TimeCreated := TimeCreated m; TimeModified := TimeModified m;
     Version := v; Timeouts := Timeouts m |}.

(** [types.ObjectValueFrom] on a digest model: both attributes are
    framework strings of the declared types, so the conversion yields
    the object and no diagnostic. *)
Definition ObjectValueFrom (dm : imageResourceDigestModel)
  : types.Value imageResourceDigestModel * diag.Diagnostics :=
  (types.Known dm, []).

(** ** Requests and responses

    A plan or prior state handed to a handler is the decoded object; the
    state in a response is [None] when the resource has no state (the
    null state a Create response starts with, and what
    [State.RemoveResource] leaves).  [Get] into a model whose fields are
    all framework value types, and [Set] from such a model, yield no
    diagnostic. *)
Module tfsdk.

Definition Plan := imageResourceModel.
Definition State := option imageResourceModel.

Definition Get (p : imageResourceModel)
  : imageResourceModel * diag.Diagnostics := (p, []).

Definition Set_ (m : imageResourceModel) : State * diag.Diagnostics :=
  (Some m, []).

Definition RemoveResource : State := None.

End tfsdk.

Record CreateRequest := { CreateRequest_Plan : tfsdk.Plan }.
Record ReadRequest := { ReadRequest_State : imageResourceModel }.
Record UpdateRequest := {
  UpdateRequest_Plan : tfsdk.Plan;
  UpdateRequest_State : imageResourceModel
}.
Record DeleteRequest := { DeleteRequest_State : imageResourceModel }.

(** The Create, Read, Update and Delete responses all carry a state and
    the diagnostics. *)
Record Response := {
  State : tfsdk.State;
  Diagnostics : diag.Diagnostics
}.

(** ** The handler monad *)

(** What a handler run has changed so far: the response behind [resp],
    and the remote calls issued, oldest first. *)
Record Frame := {
  resp : Response;
  remote : list RemoteCall
}.

(** A step either goes on with a value or has left the handler. *)
Inductive Flow (A : Type) : Type :=
| Next (a : A)
| Returned.
Arguments Returned {A}.

Definition Handler (A : Type) : Type := Frame -> Flow A * Frame.

Definition ret {A} (a : A) : Handler A := fun f => (Next a, f).

Definition bind {A B} (h : Handler A) (k : A -> Handler B) : Handler B :=
  fun f =>
    match h f with
    | (Next a, f') => k a f'
    | (Returned, f') => (Returned, f')
    end.

Declare Scope handler_scope.
Delimit Scope handler_scope with handler.
Notation "x <- c1 ;; c2" := (bind c1 (fun x => c2))
  (at level 61, c1 at next level, right associativity) : handler_scope.
Notation "c1 ;; c2" := (bind c1 (fun _ => c2))
  (at level 61, right associativity) : handler_scope.
Local Open Scope handler_scope.

(** Go's [return]. *)
Definition return_ {A} : Handler A := fun f => (Returned, f).

(** [resp.Diagnostics.Append(diags...)]. *)
Definition Diagnostics_Append (diags : diag.Diagnostics) : Handler unit :=
  fun f =>
    (Next tt,
     {| resp := {| State := State (resp f);
                   Diagnostics := diag.Append (Diagnostics (resp f)) diags |};
        remote := remote f |}).

(** [resp.Diagnostics.AddError(summary, detail)]. *)
Definition Diagnostics_AddError (summary detail : string) : Handler unit :=
  fun f =>
    (Next tt,
     {| resp := {| State := State (resp f);
                   Diagnostics :=
                     diag.AddError (Diagnostics (resp f)) summary detail |};
        remote := remote f |}).

(** [if resp.Diagnostics.HasError() { return }]. *)
Definition ReturnIfHasError : Handler unit :=
  fun f =>
    if diag.HasError (Diagnostics (resp f)) then (Returned, f)
    else (Next tt, f).

(** [resp.State.Set(ctx, &m)]: stores the model, gives the diagnostics. *)
Definition State_Set (m : imageResourceModel) : Handler diag.Diagnostics :=
  fun f =>
    let '(st, diags) := tfsdk.Set_ m in
    (Next diags,
     {| resp := {| State := st; Diagnostics := Diagnostics (resp f) |};
        remote := remote f |}).

(** [resp.State.RemoveResource(ctx)]. *)
Definition State_RemoveResource : Handler unit :=
  fun f =>
    (Next tt,
     {| resp := {| State := tfsdk.RemoveResource;
                   Diagnostics := Diagnostics (resp f) |};
        remote := remote f |}).

(** A remote call is appended to the log; its result comes from the
    client. *)
Definition Remote {A} (c : RemoteCall) (result : A) : Handler A :=
  fun f =>
    (Next result,
     {| resp := resp f; remote := (remote f ++ [c])%list |}).

(** Running a handler on the response the host passes in. *)
Definition run {A} (h : Handler A) (resp0 : Response) : Frame :=
  snd (h {| resp := resp0; remote := [] |}).

(** ** The resource *)

Record imageResource (rt : Runtime) := {
  client : oxide.Client (Time rt) (error rt)
}.

Definition ImageCreate (rt : Runtime) (r : imageResource rt)
    (params : oxide.ImageCreateParams)
  : Handler (oxide.Image (Time rt) + error rt) :=
  Remote (CallImageCreate params) (oxide.Client_ImageCreate (client r) params).

Definition ImageView (rt : Runtime) (r : imageResource rt)
    (params : oxide.ImageViewParams)
  : Handler (oxide.Image (Time rt) + error rt) :=
  Remote (CallImageView params) (oxide.Client_ImageView (client r) params).

(** The request [Create] starts from: project and body from the plan,
    the source still the zero value. *)
Definition Create_params (plan : imageResourceModel)
  : oxide.ImageCreateParams :=
  {| oxide.Project := types.ValueString (ProjectID plan);
     oxide.Body :=
       {| oxide.ImageCreate_Description :=
            types.ValueString (Description plan);
          oxide.ImageCreate_Name := types.ValueString (Name plan);
          oxide.ImageCreate_Os := types.ValueString (OS plan);
          oxide.ImageCreate_Version := types.ValueString (Version plan);
          oxide.ImageCreate_Source := oxide.ImageSource_zero |} |}.

(** [params.Body.Source = is]. *)
Definition set_Body_Source (is_ : oxide.ImageSource)
    (params : oxide.ImageCreateParams) : oxide.ImageCreateParams :=
  {| oxide.Project := oxide.Project params;
     oxide.Body :=
       {| oxide.ImageCreate_Description :=
            oxide.ImageCreate_Description (oxide.Body params);
          oxide.ImageCreate_Name := oxide.ImageCreate_Name (oxide.Body params);
          oxide.ImageCreate_Os := oxide.ImageCreate_Os (oxide.Body params);
          oxide.ImageCreate_Version :=
            oxide.ImageCreate_Version (oxide.Body params);
          oxide.ImageCreate_Source := is_ |} |}.

(** The source [Create] builds from a populated [source_snapshot_id]. *)
Definition Create_source_snapshot (plan : imageResourceModel)
  : oxide.ImageSource :=
  {| oxide.ImageSource_Id := types.ValueString (SourceSnapshotID plan);
     oxide.ImageSource_Type := oxide.ImageSourceTypeSnapshot;
     oxide.ImageSource_BlockSize :=
       oxide.ImageSource_BlockSize oxide.ImageSource_zero |}.

(** The source [Create] builds from a populated [source_url]. *)
Definition Create_source_url (plan : imageResourceModel)
  : oxide.ImageSource :=
  {| oxide.ImageSource_Id := types.ValueString (SourceURL plan);
     oxide.ImageSource_Type :=
       (* TODO: Remove before releasing, for testing purposes only *)
       if types.StringEqual (SourceURL plan)
            (types.StringValue "you_can_boot_anything_as_long_as_its_alpine")
       then oxide.ImageSourceTypeYouCanBootAnythingAsLongAsItsAlpine
       else oxide.ImageSourceTypeUrl;
     oxide.ImageSource_BlockSize :=
       oxide.BlockSize (types.ValueInt64 (BlockSize plan)) |}.

(** The digest of the remote image as a digest model. *)
Definition digestModel (Time : Type) (image : oxide.Image Time)
  : imageResourceDigestModel :=
  {| Type_ := types.StringValue (oxide.Digest_Type (oxide.Image_Digest image));
     Value :=
       types.StringValue (oxide.Digest_Value (oxide.Image_Digest image)) |}.

(** [Create]: Map response body to schema and populate Computed attribute
    values. *)
Definition Create_populate (rt : Runtime) (image : oxide.Image (Time rt))
    (plan : imageResourceModel) : imageResourceModel :=
  let plan := set_ID (types.StringValue (oxide.Image_Id image)) plan in
  let plan :=
    set_Size (types.Int64Value (int64 (oxide.Image_Size image))) plan in
  let plan :=
    set_TimeCreated
      (types.StringValue (Time_String rt (oxide.Image_TimeCreated image)))
      plan in
  let plan :=
    set_TimeModified
      (types.StringValue (Time_String rt (oxide.Image_TimeModified image)))
      plan in
  set_Version (types.StringValue (oxide.Image_Version image)) plan.

(** [Create] creates the resource and sets the initial state.

    The context with the create timeout is handed only to logging and to
    the conversions; the client's [ImageCreate] takes the parameters and
    no context, so the duration does not reach the remote call.  The
    trace message written after the call is not modelled. *)
Definition Create (rt : Runtime) (r : imageResource rt) (req : CreateRequest)
  : Handler unit :=
  let '(plan, diags) := tfsdk.Get (CreateRequest_Plan req) in
  Diagnostics_Append diags ;;
  ReturnIfHasError ;;

  let '(createTimeout, diags) :=
    timeouts.Create rt (Timeouts plan) (defaultTimeout rt) in
  Diagnostics_Append diags ;;
  ReturnIfHasError ;;

  let params := Create_params plan in

  is_ <-
    (if negb (types.IsNull (SourceSnapshotID plan)) then
       ret (Create_source_snapshot plan)
     else if negb (types.IsNull (SourceURL plan)) then
       ret (Create_source_url plan)
     else
       Diagnostics_AddError "Error creating image"
         "One of `source_url` or `source_snapshot_id` must be set" ;;
       return_) ;;
  let params := set_Body_Source is_ params in

  result <- ImageCreate r params ;;
  match result with
  | inr err =>
      Diagnostics_AddError "Error creating image"
        ("API error: " ++ Error rt err) ;;
      return_
  | inl image =>
      let plan := Create_populate rt image plan in

      (* Parse imageResourceDigestModel into types.Object *)
      let dm := digestModel image in
      let '(digest, diags) := ObjectValueFrom dm in
      Diagnostics_Append diags ;;
      ReturnIfHasError ;;
      let plan := set_Digest digest plan in

      (* Save plan into Terraform state *)
      diags <- State_Set plan ;;
      Diagnostics_Append diags ;;
      ReturnIfHasError
  end.

(** [Read]: the attributes refreshed from the remote image. *)
Definition Read_refresh (rt : Runtime) (image : oxide.Image (Time rt))
    (state : imageResourceModel) : imageResourceModel :=
  let state :=
    set_BlockSize
      (types.Int64Value (int64 (oxide.Image_BlockSize image))) state in
  let state :=
    set_Description (types.StringValue (oxide.Image_Description image))
      state in
  let state := set_ID (types.StringValue (oxide.Image_Id image)) state in
  let state := set_Name (types.StringValue (oxide.Image_Name image)) state in
  let state := set_OS (types.StringValue (oxide.Image_Os image)) state in
  let state :=
    set_Size (types.Int64Value (int64 (oxide.Image_Size image))) state in
  let state :=
    set_TimeCreated
      (types.StringValue (Time_String rt (oxide.Image_TimeCreated image)))
      state in
  let state :=
    set_TimeModified
      (types.StringValue (Time_String rt (oxide.Image_TimeModified image)))
      state in
  let state :=
    set_Version (types.StringValue (oxide.Image_Version image)) state in

  (* Only set ProjectID and SourceURL if they exist to avoid unintentional
     drift.  Some images with silo visibility may not have project IDs,
     and could be imported. *)
  let state :=
    if negb (String.eqb (oxide.Image_ProjectId image) EmptyString)
    then set_ProjectID (types.StringValue (oxide.Image_ProjectId image)) state
    else state in
  if negb (String.eqb (oxide.Image_Url image) EmptyString)
  then set_SourceURL (types.StringValue (oxide.Image_Url image)) state
  else state.

(** [Read] refreshes the state with the latest data.  As in [Create], the
    read timeout does not reach the client's [ImageView]. *)
Definition Read (rt : Runtime) (r : imageResource rt) (req : ReadRequest)
  : Handler unit :=
  (* Read Terraform prior state data into the model *)
  let '(state, diags) := tfsdk.Get (ReadRequest_State req) in
  Diagnostics_Append diags ;;
  ReturnIfHasError ;;

  let '(readTimeout, diags) :=
    timeouts.Read rt (Timeouts state) (defaultTimeout rt) in
  Diagnostics_Append diags ;;
  ReturnIfHasError ;;

  result <-
    ImageView r
      {| oxide.ImageViewParams_Image := types.ValueString (ID state) |} ;;
  match result with
  | inr err =>
      if is404 rt err then
        (* Remove resource from state during a refresh *)
        State_RemoveResource ;;
        return_
      else
        Diagnostics_AddError "Unable to read image:"
          ("API error: " ++ Error rt err) ;;
        return_
  | inl image =>
      let state := Read_refresh rt image state in

      (* Parse imageResourceDigestModel into types.Object *)
      let dm := digestModel image in
      let '(digest, diags) := ObjectValueFrom dm in
      Diagnostics_Append diags ;;
      ReturnIfHasError ;;
      let state := set_Digest digest state in

      (* Save updated data into Terraform state *)
      diags <- State_Set state ;;
      Diagnostics_Append diags ;;
      ReturnIfHasError
  end.

(** [Update]: the API does not support updating images. *)
Definition Update (rt : Runtime) (r : imageResource rt) (req : UpdateRequest)
  : Handler unit :=
  Diagnostics_AddError "Error updating image"
    "the oxide API currently does not support updating images".

(** [Delete]: the API does not support deleting images; the call to the
    client's delete method is commented out in the source. *)
Definition Delete (rt : Runtime) (r : imageResource rt) (req : DeleteRequest)
  : Handler unit :=
  Diagnostics_AddError "Error deleting image"
    "the oxide API currently does not support deleting images".

(** ** The schema

    The schema is data: for each attribute its flags, its validators and
    its plan modifiers.  Go's map of attributes is kept as the list of its
    entries in the order of the source. *)
Module schema.

(** The validators of [stringvalidator] the schema uses, each with its
    path expressions (all [path.MatchRoot]), and the duration validator
    that the timeouts package attaches to its attributes. *)
Inductive Validator :=
| ExactlyOneOf (expressions : list string)
| ConflictsWith (expressions : list string)
| AlsoRequires (expressions : list string)
| TimeDuration.

(** [stringplanmodifier.RequiresReplace] and
    [int64planmodifier.RequiresReplace]. *)
Inductive PlanModifier :=
| RequiresReplace.

Record Fields := {
  Required : bool;
  Optional : bool;
  Computed : bool;
  Description : string;
  Validators : list Validator;
  PlanModifiers : list PlanModifier
}.

#[local] Unset Elimination Schemes.
Inductive Attribute :=
| StringAttribute (f : Fields)
| Int64Attribute (f : Fields)
| SingleNestedAttribute (f : Fields) (Attributes : list (string * Attribute)).
#[local] Set Elimination Schemes.

Definition fields (a : Attribute) : Fields :=
  match a with
  | StringAttribute f => f
  | Int64Attribute f => f
  | SingleNestedAttribute f _ => f
  end.

Definition Schema := list (string * Attribute).

Fixpoint lookup (name : string) (s : Schema) : option Attribute :=
  match s with
  | [] => None
  | (k, a) :: rest => if String.eqb k name then Some a else lookup name rest
  end.

Definition hasRequiresReplace (a : Attribute) : bool :=
  existsb (fun m => match m with RequiresReplace => true end)
    (PlanModifiers (fields a)).

End schema.

(** [timeouts.Attributes(ctx, opts)]: an optional nested attribute with
    one optional string per enabled operation, each validated as a
    duration. *)
Definition timeouts_Attributes (create read update delete : bool)
  : schema.Attribute :=
  let attribute :=
    schema.StringAttribute
      {| schema.Required := false; schema.Optional := true;
         schema.Computed := false; schema.Description := EmptyString;
         schema.Validators := [schema.TimeDuration];
         schema.PlanModifiers := [] |} in
  schema.SingleNestedAttribute
    {| schema.Required := false; schema.Optional := true;
       schema.Computed := false; schema.Description := EmptyString;
       schema.Validators := []; schema.PlanModifiers := [] |}
    ((if create then [("create", attribute)] else [])
       ++ (if read then [("read", attribute)] else [])
       ++ (if update then [("update", attribute)] else [])
       ++ (if delete then [("delete", attribute)] else []))%list.

(** [Schema] defines the schema for the resource. *)
Definition Schema : schema.Schema :=
  [ ("name",
     schema.StringAttribute
       {| schema.Required := true; schema.Optional := false;
          schema.Computed := false;
          schema.Description := "Name of the image.";
          schema.Validators := [];
          schema.PlanModifiers := [schema.RequiresReplace] |});
    ("project_id",
     schema.StringAttribute
       {| schema.Required := true; schema.Optional := false;
          schema.Computed := false;
          schema.Description :=
            "ID of the project that will contain the image.";
          schema.Validators := [];
          schema.PlanModifiers := [schema.RequiresReplace] |});
    ("description",
     schema.StringAttribute
       {| schema.Required := true; schema.Optional := false;
          schema.Computed := false;
          schema.Description := "Description for the image.";
          schema.Validators := [];
          schema.PlanModifiers := [schema.RequiresReplace] |});
    ("os",
     schema.StringAttribute
       {| schema.Required := true; schema.Optional := false;
          schema.Computed := false;
          schema.Description := "OS image distribution. Example: alpine";
          schema.Validators := [];
          schema.PlanModifiers := [schema.RequiresReplace] |});
    ("version",
     schema.StringAttribute
       {| schema.Required := true; schema.Optional := false;
          schema.Computed := false;
          schema.Description := "OS image version. Example: 3.16.";
          schema.Validators := [];
          schema.PlanModifiers := [schema.RequiresReplace] |});
    ("block_size",
     schema.Int64Attribute
       {| schema.Required := false; schema.Optional := true;
          schema.Computed := false;
          schema.Description := "Size of blocks in bytes.";
          schema.Validators := [];
          schema.PlanModifiers := [schema.RequiresReplace] |});
    ("source_snapshot_id",
     schema.StringAttribute
       {| schema.Required := false; schema.Optional := true;
          schema.Computed := false;
          schema.Description :=
            "Snapshot ID of the image source if applicable.";
          schema.Validators :=
            [ schema.ExactlyOneOf ["source_url"; "source_snapshot_id"];
              schema.ConflictsWith ["block_size"] ];
          schema.PlanModifiers := [schema.RequiresReplace] |});
    ("source_url",
     schema.StringAttribute
       {| schema.Required := false; schema.Optional := true;
          schema.Computed := false;
          schema.Description := "URL source of this image, if applicable.";
          schema.Validators := [ schema.AlsoRequires ["block_size"] ];
          schema.PlanModifiers := [schema.RequiresReplace] |});
    ("timeouts", timeouts_Attributes true true false false);
    ("digest",
     schema.SingleNestedAttribute
       {| schema.Required := false; schema.Optional := false;
          schema.Computed := true;
          schema.Description := "Hash of the image contents, if applicable.";
          schema.Validators := []; schema.PlanModifiers := [] |}
       [ ("type",
          schema.StringAttribute
            {| schema.Required := false; schema.Optional := false;
               schema.Computed := true;
               schema.Description := "Digest type.";
               schema.Validators := []; schema.PlanModifiers := [] |});
         ("value",
          schema.StringAttribute
            {| schema.Required := false; schema.Optional := false;
               schema.Computed := true;
               schema.Description := "Digest type value.";
               schema.Validators := []; schema.PlanModifiers := [] |}) ]);
    ("id",
     schema.StringAttribute
       {| schema.Required := false; schema.Optional := false;
          schema.Computed := true;
          schema.Description :=
            "Unique, immutable, system-controlled identifier of the image.";
          schema.Validators := []; schema.PlanModifiers := [] |});
    ("size",
     schema.Int64Attribute
       {| schema.Required := false; schema.Optional := false;
          schema.Computed := true;
          schema.Description := "Total size in bytes.";
          schema.Validators := []; schema.PlanModifiers := [] |});
    ("time_created",
     schema.StringAttribute
       {| schema.Required := false; schema.Optional := false;
          schema.Computed := true;
          schema.Description := "Timestamp of when this image was created.";
          schema.Validators := []; schema.PlanModifiers := [] |});
    ("time_modified",
     schema.StringAttribute
       {| schema.Required := false; schema.Optional := false;
          schema.Computed := true;
          schema.Description :=
            "Timestamp of when this image was last modified.";
          schema.Validators := []; schema.PlanModifiers := [] |}) ].

(** Equality of the values of the two object attributes. *)
Definition digest_eqb (d e : imageResourceDigestModel) : bool :=
  types.StringEqual (Type_ d) (Type_ e)
  && types.StringEqual (Value d) (Value e).

Fixpoint timeouts_eqb (m n : list (string * types.String)) : bool :=
  match m, n with
  | [], [] => true
  | (k, v) :: m', (k', v') :: n' =>
      String.eqb k k' && types.StringEqual v v' && timeouts_eqb m' n'
  | _, _ => false
  end.

(** ** Attribute values of a configuration, plan or state *)
Module attr.

(** The value found at a root attribute of the image resource. *)
Inductive Value :=
| String (v : types.Value string)
| Int64 (v : types.Int64)
| Object (v : types.Value imageResourceDigestModel)
| Timeouts (v : timeouts.Value).

Definition IsNull (v : Value) : bool :=
  match v with
  | String v => types.IsNull v
  | Int64 v => types.IsNull v
  | Object v => types.IsNull v
  | Timeouts v => types.IsNull v
  end.

Definition IsUnknown (v : Value) : bool :=
  match v with
  | String v => types.IsUnknown v
  | Int64 v => types.IsUnknown v
  | Object v => types.IsUnknown v
  | Timeouts v => types.IsUnknown v
  end.

Definition Equal (v w : Value) : bool :=
  match v, w with
  | String a, String b => types.StringEqual a b
  | Int64 a, Int64 b => types.Int64Equal a b
  | Object a, Object b => types.Equal digest_eqb a b
  | Timeouts a, Timeouts b => types.Equal timeouts_eqb a b
  | _, _ => false
  end.

End attr.

(** [GetAttribute(ctx, path.Root(name), &v)] on a decoded object: the
    field with that [tfsdk] tag. *)
Definition GetAttribute (m : imageResourceModel) (name : string)
  : option attr.Value :=
  if String.eqb name "block_size" then Some (attr.Int64 (BlockSize m))
  else if String.eqb name "description" then Some (attr.String (Description m))
  else if String.eqb name "digest" then Some (attr.Object (Digest m))
  else if String.eqb name "id" then Some (attr.String (ID m))
  else if String.eqb name "name" then Some (attr.String (Name m))
  else if String.eqb name "os" then Some (attr.String (OS m))
  else if String.eqb name "project_id" then Some (attr.String (ProjectID m))
  else if String.eqb name "size" then Some (attr.Int64 (Size m))
  else if String.eqb name "source_snapshot_id"
  then Some (attr.String (SourceSnapshotID m))
  else if String.eqb name "source_url" then Some (attr.String (SourceURL m))
  else if String.eqb name "time_created"
  then Some (attr.String (TimeCreated m))
  else if String.eqb name "time_modified"
  then Some (attr.String (TimeModified m))
  else if String.eqb name "version" then Some (attr.String (Version m))
  else if String.eqb name "timeouts" then Some (attr.Timeouts (Timeouts m))
  else None.

(** ** The schema validators

    The behaviour of [ExactlyOneOf], [ConflictsWith] and [AlsoRequires]
    of terraform-plugin-framework-validators on root attributes: each
    looks at the configured value of its own attribute and of the
    attributes its expressions name, waits (produces nothing more) as
    soon as one of them is unknown, and reports an "Invalid Attribute
    Combination" error at its own attribute. *)
Module schemavalidator.

Definition InvalidAttributeCombinationDiagnostic (path description : string)
  : diag.Diagnostic :=
  diag.NewAttributeErrorDiagnostic path "Invalid Attribute Combination"
    description.

(** A path expression that matches no attribute of the schema. *)
Definition InvalidPathExpressionDiagnostic (path expression : string)
  : diag.Diagnostic :=
  diag.NewAttributeErrorDiagnostic path "Invalid Path Expression for Schema"
    ("The Terraform Provider unexpectedly provided a path expression that "
       ++ "does not match the current schema. Path Expression: "
       ++ expression).

(** [path.Expressions.String]. *)
Definition Expressions_String (expressions : list string) : string :=
  "[" ++ String.concat "," expressions ++ "]".

Definition itoa (n : nat) : string :=
  NilEmpty.string_of_uint (Nat.to_uint n).

(** The loop of [ExactlyOneOf] over the expressions: the number of
    non-null attributes so far and the diagnostics, and whether the
    validation is delayed by an unknown value. *)
Fixpoint ExactlyOneOf_loop (config : imageResourceModel) (path : string)
    (expressions : list string) (count : nat) (diags : diag.Diagnostics)
  : bool * nat * diag.Diagnostics :=
  match expressions with
  | [] => (false, count, diags)
  | mp :: rest =>
      if String.eqb mp path
      then ExactlyOneOf_loop config path rest count diags
      else
        match GetAttribute config mp with
        | None =>
            ExactlyOneOf_loop config path rest count
              (diag.Append diags [InvalidPathExpressionDiagnostic path mp])
        | Some mpVal =>
            if attr.IsUnknown mpVal then (true, count, diags)
            else
              ExactlyOneOf_loop config path rest
                (if attr.IsNull mpVal then count else S count) diags
        end
  end.

Definition ExactlyOneOf (config : imageResourceModel) (path : string)
    (configValue : attr.Value) (expressions : list string)
  : diag.Diagnostics :=
  if attr.IsUnknown configValue then []
  else
    let count := if attr.IsNull configValue then O else 1%nat in
    match ExactlyOneOf_loop config path expressions count [] with
    | (true, _, diags) => diags
    | (false, count, diags) =>
        let diags :=
          if Nat.eqb count 0 then
            diag.Append diags
              [InvalidAttributeCombinationDiagnostic path
                 ("No attribute specified when one (and only one) of "
                    ++ Expressions_String expressions ++ " is required")]
          else diags in
        if Nat.ltb 1 count then
          diag.Append diags
            [InvalidAttributeCombinationDiagnostic path
               (itoa count
                  ++ " attributes specified when one (and only one) of "
                  ++ Expressions_String expressions ++ " is required")]
        else diags
    end.

(** The loop shared by [AlsoRequires] ([wantNull] false: a null
    attribute is the error) and [ConflictsWith] ([wantNull] true: a
    non-null attribute is the error). *)
Fixpoint Requires_loop (wantNull : bool) (message : string -> string)
    (config : imageResourceModel) (path : string)
    (expressions : list string) (diags : diag.Diagnostics)
  : diag.Diagnostics :=
  match expressions with
  | [] => diags
  | mp :: rest =>
      if String.eqb mp path
      then Requires_loop wantNull message config path rest diags
      else
        match GetAttribute config mp with
        | None =>
            Requires_loop wantNull message config path rest
              (diag.Append diags [InvalidPathExpressionDiagnostic path mp])
        | Some mpVal =>
            if attr.IsUnknown mpVal then diags
            else
              Requires_loop wantNull message config path rest
                (if Bool.eqb (attr.IsNull mpVal) wantNull then diags
                 else
                   diag.Append diags
                     [InvalidAttributeCombinationDiagnostic path
                        (message mp)])
        end
  end.

Definition AlsoRequires (config : imageResourceModel) (path : string)
    (configValue : attr.Value) (expressions : list string)
  : diag.Diagnostics :=
  (* If attribute configuration is null, there is nothing else to validate *)
  if attr.IsNull configValue then []
  else
    Requires_loop false
      (fun mp =>
         "Attribute " ++ fmt_q mp ++ " must be specified when "
           ++ fmt_q path ++ " is specified")
      config path expressions [].

Definition ConflictsWith (config : imageResourceModel) (path : string)
    (configValue : attr.Value) (expressions : list string)
  : diag.Diagnostics :=
  (* If attribute configuration is null, it cannot conflict with others *)
  if attr.IsNull configValue then []
  else
    Requires_loop true
      (fun mp =>
         "Attribute " ++ fmt_q mp ++ " cannot be specified when "
           ++ fmt_q path ++ " is specified")
      config path expressions [].

(** The description of the duration validator: the text that follows
    the rejected value in its diagnostic. *)
Definition TimeDuration_Description : string :=
  "must be a string containing a sequence of decimal numbers, each with "
    ++ "optional fraction and a unit suffix, such as " ++ fmt_q "300ms"
    ++ ", " ++ fmt_q "-1.5h" ++ " or " ++ fmt_q "2h45m"
    ++ ". Valid time units are " ++ fmt_q "ns" ++ ", " ++ fmt_q "us"
    ++ " (or "
    ++ fmt_q (String (ascii_of_nat 194) (String (ascii_of_nat 181) "s"))
    ++ "), " ++ fmt_q "ms" ++ ", " ++ fmt_q "s" ++ ", " ++ fmt_q "m"
    ++ ", " ++ fmt_q "h" ++ ".".

(** The duration validator of the timeouts package: a string that is
    neither null nor unknown must parse with [time.ParseDuration]. *)
Definition TimeDuration (rt : Runtime) (path : string)
    (configValue : attr.Value) : diag.Diagnostics :=
  match configValue with
  | attr.String (types.Known s) =>
      match ParseDuration rt s with
      | inl _ => []
      | inr _ =>
          [diag.NewAttributeErrorDiagnostic path
             "Invalid Attribute Value Time Duration"
             (fmt_q s ++ " " ++ TimeDuration_Description)]
      end
  | _ => []
  end.

Definition Validate (rt : Runtime) (config : imageResourceModel)
    (path : string) (configValue : attr.Value) (v : schema.Validator)
  : diag.Diagnostics :=
  match v with
  | schema.ExactlyOneOf expressions =>
      ExactlyOneOf config path configValue expressions
  | schema.ConflictsWith expressions =>
      ConflictsWith config path configValue expressions
  | schema.AlsoRequires expressions =>
      AlsoRequires config path configValue expressions
  | schema.TimeDuration => TimeDuration rt path configValue
  end.

End schemavalidator.

(** The value of an attribute of a nested object: none when the object
    is null or unknown, or has no attribute of that name. *)
Definition GetNestedAttribute (v : attr.Value) (name : string)
  : option attr.Value :=
  match v with
  | attr.Object (types.Known dm) =>
      if String.eqb name "type" then Some (attr.String (Type_ dm))
      else if String.eqb name "value" then Some (attr.String (Value dm))
      else None
  | attr.Timeouts (types.Known m) =>
      option_map attr.String (timeouts.lookup name m)
  | _ => None
  end.

(** The validation of one attribute on its configured value: its own
    validators in order, then, for a nested attribute whose object is
    neither null nor unknown, the validation of each attribute inside
    it, at the path [path.name]. *)
Fixpoint AttributeValidateValue (rt : Runtime) (config : imageResourceModel)
    (path : string) (configValue : attr.Value) (a : schema.Attribute)
    {struct a} : diag.Diagnostics :=
  let own :=
    fold_left
      (fun diags v =>
         diag.Append diags
           (schemavalidator.Validate rt config path configValue v))
      (schema.Validators (schema.fields a)) [] in
  match a with
  | schema.SingleNestedAttribute _ attributes =>
      if attr.IsNull configValue || attr.IsUnknown configValue then own
      else
        (fix nested (l : list (string * schema.Attribute))
             (diags : diag.Diagnostics) {struct l} : diag.Diagnostics :=
           match l with
           | [] => diags
           | (name, nestedAttr) :: rest =>
               nested rest
                 (diag.Append diags
                    match GetNestedAttribute configValue name with
                    | Some nestedValue =>
                        AttributeValidateValue rt config
                          (path ++ "." ++ name) nestedValue nestedAttr
                    | None => []
                    end)
           end) attributes own
  | _ => own
  end.

(** The validators of one root attribute, run on the configuration. *)
Definition AttributeValidate (rt : Runtime) (config : imageResourceModel)
    (path : string) (a : schema.Attribute) : diag.Diagnostics :=
  match GetAttribute config path with
  | None => []
  | Some configValue => AttributeValidateValue rt config path configValue a
  end.

(** The validators of every attribute of the schema, nested attributes
    included.  (The framework's own checks that a required attribute is
    set and a read-only one is not are no validators of the schema and
    are not part of this.) *)
Definition ValidateConfig (rt : Runtime) (s : schema.Schema)
    (config : imageResourceModel) : diag.Diagnostics :=
  fold_left
    (fun diags entry =>
       diag.Append diags
         (AttributeValidate rt config (fst entry) (snd entry)))
    s [].

(** ** Creating an image, as the host does it

    The host has the provider validate the configuration [config] (the
    validators of the schema) and has it apply the plan, which invokes
    [Create] on the request [req], only when that validation reported no
    error.  The plan of [req] is derived from [config]: it carries the
    value of the configuration at every attribute that is not computed,
    the two sources, the block size and the timeouts among them. *)
Definition ValidatedCreate (rt : Runtime) (r : imageResource rt)
    (config : imageResourceModel) (req : CreateRequest) : Handler unit :=
  Diagnostics_Append (ValidateConfig rt Schema config) ;;
  ReturnIfHasError ;;
  Create r req.

(** ** Plan modification

    [RequiresReplace] asks for the resource to be replaced when the
    planned value of its attribute is not equal to the value in the
    prior state. *)
Definition PlanModify (m : schema.PlanModifier)
    (planValue stateValue : attr.Value) : bool :=
  match m with
  | schema.RequiresReplace => negb (attr.Equal planValue stateValue)
  end.

Definition AttributeModifyPlan (plan state : imageResourceModel)
    (path : string) (a : schema.Attribute) : bool :=
  match GetAttribute plan path, GetAttribute state path with
  | Some planValue, Some stateValue =>
      existsb (fun m => PlanModify m planValue stateValue)
        (schema.PlanModifiers (schema.fields a))
  | _, _ => false
  end.

(** The paths for which the plan of an existing resource requires
    replacement ([resp.RequiresReplace]); the host replaces the resource,
    instead of updating it, when there is one. *)
Definition RequiresReplace (s : schema.Schema)
    (plan state : imageResourceModel) : list string :=
  map fst (filter (fun '(path, a) => AttributeModifyPlan plan state path a) s).

(** ** The outcome of a Create that reaches the remote API

    What [Create] leaves once it has a source: the call is in the log,
    and the response follows the answer of the client.  The runs of
    [Create] are proved to end here. *)
Definition Create_outcome (rt : Runtime) (r : imageResource rt)
    (req : CreateRequest) (resp0 : Response) (is_ : oxide.ImageSource)
  : Frame :=
  let plan := CreateRequest_Plan req in
  let params := set_Body_Source is_ (Create_params plan) in
  {| resp :=
       match oxide.Client_ImageCreate (client r) params with
       | inr err =>
           {| State := State resp0;
              Diagnostics :=
                diag.AddError (Diagnostics resp0) "Error creating image"
                  ("API error: " ++ Error rt err) |}
       | inl image =>
           {| State :=
                Some (set_Digest (types.Known (digestModel image))
                        (Create_populate rt image plan));
              Diagnostics := Diagnostics resp0 |}
       end;
     remote := [CallImageCreate params] |}.

(** ** The outcome of a Read that reaches the remote API

    What [Read] leaves once it has called the remote API: the view call
    is in the log, and the response follows the answer of the client.
    The runs of [Read] are proved to end here. *)
Definition Read_outcome (rt : Runtime) (r : imageResource rt)
    (req : ReadRequest) (resp0 : Response) : Frame :=
  let state := ReadRequest_State req in
  let params :=
    {| oxide.ImageViewParams_Image := types.ValueString (ID state) |} in
  {| resp :=
       match oxide.Client_ImageView (client r) params with
       | inr err =>
           if is404 rt err
           then {| State := None; Diagnostics := Diagnostics resp0 |}
           else
             {| State := State resp0;
                Diagnostics :=
                  diag.AddError (Diagnostics resp0) "Unable to read image:"
                    ("API error: " ++ Error rt err) |}
       | inl image =>
           {| State :=
                Some (set_Digest (types.Known (digestModel image))
                        (Read_refresh rt image state));
              Diagnostics := Diagnostics resp0 |}
       end;
     remote := [CallImageView params] |}.

(** ** A concrete runtime, clients and models for the examples *)
Module example.

(** Times are kept as their printed form and errors as their message;
    a duration parses when it is ["20m"]; an error is a 404 when its
    message says so. *)
Definition rt : Runtime :=
  {| Time := string;
     error := string;
     Error := fun e => e;
     Time_String := fun t => t;
     ParseDuration := fun s =>
       if String.eqb s "20m" then inl 1200000000000
       else inr ("time: invalid duration " ++ fmt_q s);
     is404 := fun e => Contains e "Status: 404";
     defaultTimeout := 600000000000 |}.

Definition image : oxide.Image string :=
  {| oxide.Image_BlockSize := 512;
     oxide.Image_Description := "an alpine image";
     oxide.Image_Digest :=
       {| oxide.Digest_Type := "sha256"; oxide.Digest_Value := "6b86b273" |};
     oxide.Image_Id := "4f7a1c2e";
     oxide.Image_Name := "alpine";
     oxide.Image_Os := "alpine";
     oxide.Image_ProjectId := EmptyString;
     oxide.Image_Size := 1073741824;
     oxide.Image_TimeCreated := "2023-06-01 10:00:00 +0000 UTC";
     oxide.Image_TimeModified := "2023-06-02 11:30:00 +0000 UTC";
     oxide.Image_Url := EmptyString;
     oxide.Image_Version := "3.16" |}.

(** A remote API on which every call succeeds with [image]. *)
Definition working_client : oxide.Client string string :=
  {| oxide.Client_ImageCreate := fun _ => inl image;
     oxide.Client_ImageView := fun _ => inl image |}.
Definition working : imageResource rt :=
  @Build_imageResource rt working_client.

(** A remote API that knows no image. *)
Definition absent_client : oxide.Client string string :=
  {| oxide.Client_ImageCreate := fun _ =>
       inr "POST /v1/images FAILED: Status: 404 Not Found";
     oxide.Client_ImageView := fun _ =>
       inr "GET /v1/images/4f7a1c2e FAILED: Status: 404 Not Found" |}.
Definition absent : imageResource rt :=
  @Build_imageResource rt absent_client.

(** A remote API on which every call fails with a server error. *)
Definition failing_client : oxide.Client string string :=
  {| oxide.Client_ImageCreate := fun _ =>
       inr "POST /v1/images FAILED: Status: 500 Internal Server Error";
     oxide.Client_ImageView := fun _ =>
       inr "GET /v1/images/4f7a1c2e FAILED: Status: 500 Internal Server Error"
  |}.
Definition failing : imageResource rt :=
  @Build_imageResource rt failing_client.

(** A configuration with the required attributes and no source. *)
Definition no_source : imageResourceModel :=
  {| BlockSize := types.Null;
     Description := types.Known "an alpine image";
     Digest := types.Unknown;
     ID := types.Unknown;
     Name := types.Known "alpine";
     OS := types.Known "alpine";
     ProjectID := types.Known "9d2c6f1b";
     Size := types.Unknown;
     SourceSnapshotID := types.Null;
     SourceURL := types.Null;
     TimeCreated := types.Unknown;
     TimeModified := types.Unknown;
     Version := types.Known "3.15";
     Timeouts := types.Null |}.

Definition with_source (snapshot url : types.String) (bs : types.Int64)
  : imageResourceModel :=
  {| BlockSize := bs;
     Description := Description no_source;
     Digest := Digest no_source;
     ID := ID no_source;
     Name := Name no_source;
     OS := OS no_source;
     ProjectID := ProjectID no_source;
     Size := Size no_source;
     SourceSnapshotID := snapshot;
     SourceURL := url;
     TimeCreated := TimeCreated no_source;
     TimeModified := TimeModified no_source;
     Version := Version no_source;
     Timeouts := Timeouts no_source |}.

Definition from_url : imageResourceModel :=
  with_source types.Null (types.Known "http://images.example/alpine.raw")
    (types.Known 512).

Definition from_url_no_block_size : imageResourceModel :=
  with_source types.Null (types.Known "http://images.example/alpine.raw")
    types.Null.

Definition from_snapshot : imageResourceModel :=
  with_source (types.Known "c0ffee11") types.Null types.Null.

Definition both_sources : imageResourceModel :=
  with_source (types.Known "c0ffee11")
    (types.Known "http://images.example/alpine.raw") types.Null.

Definition alpine : imageResourceModel :=
  with_source types.Null
    (types.Known "you_can_boot_anything_as_long_as_its_alpine")
    (types.Known 512).

(** The same configurations with timeouts: [with_timeouts] sets the
    timeouts of a configuration. *)
Definition with_timeouts (t : timeouts.Value) (m : imageResourceModel)
  : imageResourceModel :=
  {| BlockSize := BlockSize m;
     Description := Description m;
     Digest := Digest m;
     ID := ID m;
     Name := Name m;
     OS := OS m;
     ProjectID := ProjectID m;
     Size := Size m;
     SourceSnapshotID := SourceSnapshotID m;
     SourceURL := SourceURL m;
     TimeCreated := TimeCreated m;
     TimeModified := TimeModified m;
     Version := Version m;
     Timeouts := t |}.

(** A URL source with a read timeout that is a duration. *)
Definition from_url_read_timeout : imageResourceModel :=
  with_timeouts (types.Known [("read", types.Known "20m")]) from_url.

(** A URL source with a create timeout that is no duration. *)
Definition from_url_bad_timeout : imageResourceModel :=
  with_timeouts
    (types.Known [("create", types.Known "soon"); ("read", types.Known "20m")])
    from_url.

(** A URL and a block size that are not known yet, with a create timeout
    that is no duration. *)
Definition unknown_url_bad_timeout : imageResourceModel :=
  with_timeouts
    (types.Known [("create", types.Known "soon"); ("read", types.Known "20m")])
    (with_source types.Null types.Unknown types.Unknown).

(** The state recorded for an image created from a snapshot. *)
Definition recorded : imageResourceModel :=
  {| BlockSize := types.Null;
     Description := types.Known "an alpine image";
     Digest :=
       types.Known {| Type_ := types.Known "sha256";
                      Value := types.Known "6b86b273" |};
     ID := types.Known "4f7a1c2e";
     Name := types.Known "alpine";
     OS := types.Known "alpine";
     ProjectID := types.Known "9d2c6f1b";
     Size := types.Known 1073741824;
     SourceSnapshotID := types.Known "c0ffee11";
     SourceURL := types.Null;
     TimeCreated := types.Known "2023-06-01 10:00:00 +0000 UTC";
     TimeModified := types.Known "2023-06-01 10:00:00 +0000 UTC";
     Version := types.Known "3.15";
     Timeouts := types.Null |}.

(** The responses the host hands to the handlers: no state for a
    Create, the prior state otherwise, and no diagnostics. *)
Definition fresh : Response := {| State := None; Diagnostics := [] |}.
Definition prior : Response :=
  {| State := Some recorded; Diagnostics := [] |}.

End example.

(** ** Import

    [ImportState] hands the request to [resource.ImportStatePassthroughID]
    with the path [path.Root("id")].  The path is not empty, so the
    helper's only own error (a missing path) cannot occur and what is
    left is [resp.State.SetAttribute(ctx, path.Root("id"), req.ID)]. *)

Record ImportStateRequest := { ImportStateRequest_ID : string }.

(** The object of a state that holds no value yet: every attribute null. *)
Definition nullModel : imageResourceModel :=
  {| BlockSize := types.Null;
     Description := types.Null;
     Digest := types.Null;
     ID := types.Null;
     Name := types.Null;
     OS := types.Null;
     ProjectID := types.Null;
     Size := types.Null;
     SourceSnapshotID := types.Null;
     SourceURL := types.Null;
     TimeCreated := types.Null;
     TimeModified := types.Null;
     Version := types.Null;
     Timeouts := types.Null |}.

(** [resp.State.SetAttribute(ctx, path.Root("id"), value)]: the [id] of
    the state's object is set, the object being created with null
    attributes when the state has none; a string into a string
    attribute gives no diagnostic. *)
Definition State_SetAttribute_id (value : string)
  : Handler diag.Diagnostics :=
  fun f =>
    let m := match State (resp f) with Some m => m | None => nullModel end in
    (Next [],
     {| resp := {| State := Some (set_ID (types.StringValue value) m);
                   Diagnostics := Diagnostics (resp f) |};
        remote := remote f |}).

Definition ImportStatePassthroughID_id (req : ImportStateRequest)
  : Handler unit :=
  diags <- State_SetAttribute_id (ImportStateRequest_ID req) ;;
  Diagnostics_Append diags.

Definition ImportState (rt : Runtime) (r : imageResource rt)
    (req : ImportStateRequest) : Handler unit :=
  ImportStatePassthroughID_id req.

(** ** The provider configuration

    The provider file of the package [oxide]: the schema of the provider
    block with its defaults, and [newProviderMeta], which builds the
    client from the resolved host and token. *)
Module provider.

Definition defaultHost : string := "http://127.0.0.1:12220".

(** [schema.MultiEnvDefaultFunc(ks, dv)], given [os.Getenv]: the value of
    the first variable of [ks] that is not empty, else [dv]. *)
Fixpoint MultiEnvDefaultFunc (Getenv : string -> string) (ks : list string)
    (dv : string) : string :=
  match ks with
  | [] => dv
  | k :: rest =>
      if negb (String.eqb (Getenv k) EmptyString) then Getenv k
      else MultiEnvDefaultFunc Getenv rest dv
  end.

(** [validation.IsURLWithScheme], kept as data. *)
Inductive SchemaValidateFunc :=
| IsURLWithScheme (schemes : list string).

(** A string attribute of the provider block. *)
Record Schema := {
  Optional : bool;
  Sensitive : bool;
  ValidateFunc : option SchemaValidateFunc;
  DefaultFunc : (string -> string) -> string
}.

Record ProviderT := {
  Provider_Schema : list (string * Schema);
  ResourcesMap : list string;
  DataSourcesMap : list string
}.

Definition Provider : ProviderT :=
  {| Provider_Schema :=
       [ ("host",
          {| Optional := true;
             Sensitive := false;
             ValidateFunc := Some (IsURLWithScheme ["http"; "https"]);
             DefaultFunc := fun Getenv =>
               MultiEnvDefaultFunc Getenv ["OXIDE_HOST"; "OXIDE_TEST_HOST"]
                 defaultHost |});
         ("token",
          {| Optional := true;
             Sensitive := true;
             ValidateFunc := None;
             DefaultFunc := fun Getenv =>
               MultiEnvDefaultFunc Getenv ["OXIDE_TOKEN"; "OXIDE_TEST_TOKEN"]
                 EmptyString |}) ];
     ResourcesMap := [];
     DataSourcesMap := ["oxide_organizations"] |}.

Fixpoint lookup (key : string) (s : list (string * Schema)) : option Schema :=
  match s with
  | [] => None
  | (k, a) :: rest => if String.eqb k key then Some a else lookup key rest
  end.

(** The resource data [newProviderMeta] receives: what the provider
    block sets, and the environment of the process. *)
Record ResourceData := {
  config : string -> option string;
  Getenv : string -> string
}.

(** [d.Get(key).(string)]: the configured value, or the default of the
    schema when the key is not configured (the zero value for a key the
    schema does not have). *)
Definition Get (d : ResourceData) (key : string) : string :=
  match config d key with
  | Some v => v
  | None =>
      match lookup key (Provider_Schema Provider) with
      | Some a => DefaultFunc a (Getenv d)
      | None => EmptyString
      end
  end.

(** [newProviderMeta]; [Errorf] is [fmt.Errorf] on a constant message and
    [NewClient] the constructor of the SDK. *)
Definition newProviderMeta (C E : Type) (Errorf : string -> E)
    (NewClient : string -> string -> string -> C + E) (d : ResourceData)
  : C + E :=
  let host := Get d "host" in
  if String.eqb host EmptyString
  then inr (Errorf "host must not be empty")
  else
    let token := Get d "token" in
    if String.eqb token EmptyString
    then inr (Errorf "token must not be empty")
    else NewClient token "terraform-provider-oxide" host.

End provider.

(** Provider blocks and environments for the examples. *)
Module provider_example.

(** A constructor that records its three arguments. *)
Definition NewClient (token userAgent host : string)
  : (string * string * string) + string :=
  inl (token, userAgent, host).

Definition Errorf (message : string) : string := message.

(** Nothing configured, token from [OXIDE_TEST_TOKEN]. *)
Definition from_test_env : provider.ResourceData :=
  {| provider.config := fun _ => None;
     provider.Getenv := fun k =>
       if String.eqb k "OXIDE_TEST_TOKEN" then "oxide-token-1234"
       else EmptyString |}.

(** Host configured, both host variables and both token variables set. *)
Definition configured_host : provider.ResourceData :=
  {| provider.config := fun k =>
       if String.eqb k "host" then Some "https://oxide.example" else None;
     provider.Getenv := fun k =>
       if String.eqb k "OXIDE_HOST" then "http://10.0.0.1:12220"
       else if String.eqb k "OXIDE_TEST_HOST" then "http://10.0.0.2:12220"
       else if String.eqb k "OXIDE_TOKEN" then "oxide-token-1234"
       else if String.eqb k "OXIDE_TEST_TOKEN" then "oxide-token-5678"
       else EmptyString |}.

(** Nothing configured and nothing in the environment. *)
Definition bare : provider.ResourceData :=
  {| provider.config := fun _ => None;
     provider.Getenv := fun _ => EmptyString |}.

End provider_example.

(** * Properties *)

(** ** Strings *)

Lemma prefix_app (s t : string) : prefix s (s ++ t) = true.
Proof.
  induction s as [|c s IH]; simpl.
  - now destruct t.
  - destruct (ascii_dec c c) as [_|ne]; [exact IH | now elim ne].
Qed.

Lemma Contains_prefix (s sub : string) :
  prefix sub s = true -> Contains s sub = true.
Proof. intros H. destruct s; simpl in *; now rewrite H. Qed.

(** A string contains each of its parts. *)
Lemma Contains_app (pre s post : string) :
  Contains (pre ++ s ++ post) s = true.
Proof.
  induction pre as [|c pre IH]; simpl.
  - apply Contains_prefix, prefix_app.
  - rewrite IH. apply orb_true_r.
Qed.

Lemma Contains_suffix (pre s : string) : Contains (pre ++ s) s = true.
Proof.
  replace (pre ++ s) with (pre ++ s ++ EmptyString).
  - apply Contains_app.
  - f_equal. induction s as [|c s IH]; simpl; [reflexivity | now rewrite IH].
Qed.

(** ** The conversion to [int64] *)

Lemma int64_range (x : Z) : - 2 ^ 63 <= int64 x < 2 ^ 63.
Proof.
  unfold int64.
  assert (0 <= (x + 2 ^ 63) mod 2 ^ 64 < 2 ^ 64) by (apply Z.mod_pos_bound; lia).
  lia.
Qed.

Lemma int64_small (x : Z) : - 2 ^ 63 <= x < 2 ^ 63 -> int64 x = x.
Proof.
  intros H. unfold int64. rewrite Z.mod_small; lia.
Qed.

(** A remote size is recorded unchanged when it fits an [int64]. *)
Lemma Int64Value_in_range (x : Z) :
  0 <= x < 2 ^ 63 -> types.Int64Value (int64 x) = types.Known x.
Proof.
  intros H. unfold types.Int64Value. rewrite int64_small; [reflexivity | lia].
Qed.

(** ** Diagnostics *)

Lemma Severity_eqb_eq (a b : diag.Severity) :
  diag.Severity_eqb a b = true -> a = b.
Proof. destruct a, b; simpl; congruence. Qed.

Lemma Diagnostic_Equal_eq (d e : diag.Diagnostic) :
  diag.Diagnostic_Equal d e = true -> d = e.
Proof.
  destruct d as [s1 m1 t1 p1], e as [s2 m2 t2 p2].
  unfold diag.Diagnostic_Equal; simpl. intros H.
  apply andb_prop in H as [H Hp]. apply andb_prop in H as [H Ht].
  apply andb_prop in H as [Hs Hm].
  apply Severity_eqb_eq in Hs. apply String.eqb_eq in Hm, Ht.
  subst. destruct p1, p2; try discriminate; [|reflexivity].
  apply String.eqb_eq in Hp. now subst.
Qed.

Lemma Contains_In (diags : diag.Diagnostics) (d : diag.Diagnostic) :
  diag.Contains diags d = true -> In d diags.
Proof.
  unfold diag.Contains. intros H.
  apply existsb_exists in H as [e [He Heq]].
  apply Diagnostic_Equal_eq in Heq. now subst.
Qed.

(** Appending keeps what was there and adds what was not. *)
Lemma In_Append (diags in_ : diag.Diagnostics) (d : diag.Diagnostic) :
  In d diags \/ In d in_ -> In d (diag.Append diags in_).
Proof.
  revert diags. induction in_ as [|e rest IH]; intros diags H; simpl.
  - destruct H as [H|[]]. exact H.
  - destruct (diag.Contains diags e) eqn:C; apply IH.
    + destruct H as [H|[H|H]]; auto.
      subst. left. now apply Contains_In.
    + destruct H as [H|[H|H]]; auto.
      * left. apply in_or_app. now left.
      * subst. left. apply in_or_app. right. now left.
Qed.

Lemma In_Append_inv (diags in_ : diag.Diagnostics) (d : diag.Diagnostic) :
  In d (diag.Append diags in_) -> In d diags \/ In d in_.
Proof.
  revert diags. induction in_ as [|e rest IH]; intros diags H; simpl in *.
  - now left.
  - destruct (diag.Contains diags e); apply IH in H as [H|H]; auto.
    apply in_app_or in H as [H|[H|[]]]; auto.
Qed.

Lemma HasError_In (diags : diag.Diagnostics) (d : diag.Diagnostic) :
  In d diags -> diag.IsError d = true -> diag.HasError diags = true.
Proof.
  intros H E. apply existsb_exists. now exists d.
Qed.

Lemma HasError_Append (diags in_ : diag.Diagnostics) :
  diag.HasError (diag.Append diags in_)
  = diag.HasError diags || diag.HasError in_.
Proof.
  destruct (diag.HasError diags || diag.HasError in_) eqn:E.
  - apply orb_prop in E as [E|E];
      apply existsb_exists in E as [d [Hd Hs]];
      apply HasError_In with d; auto using In_Append.
  - apply orb_false_elim in E as [E1 E2].
    destruct (diag.HasError (diag.Append diags in_)) eqn:E; [|reflexivity].
    apply existsb_exists in E as [d [Hd Hs]].
    apply In_Append_inv in Hd as [Hd|Hd].
    + rewrite (HasError_In _ _ Hd Hs) in E1. discriminate.
    + rewrite (HasError_In _ _ Hd Hs) in E2. discriminate.
Qed.

Lemma In_AddError (diags : diag.Diagnostics) (summary detail : string) :
  In (diag.NewErrorDiagnostic summary detail)
     (diag.AddError diags summary detail).
Proof. apply In_Append. right. now left. Qed.

Lemma HasError_AddError (diags : diag.Diagnostics) (summary detail : string) :
  diag.HasError (diag.AddError diags summary detail) = true.
Proof.
  unfold diag.AddError. rewrite HasError_Append. apply orb_true_r.
Qed.

Create HintDb diags.
#[local] Hint Resolve In_AddError HasError_AddError : diags.

(** ** Timeouts *)

(** [getTimeout] gives no diagnostic, or one error. *)
Lemma getTimeout_diags (rt : Runtime) (t : timeouts.Value) (name : string)
    (default : Z) :
  snd (timeouts.getTimeout rt t name default) = []
  \/ diag.HasError (snd (timeouts.getTimeout rt t name default)) = true.
Proof.
  unfold timeouts.getTimeout.
  destruct (timeouts.lookup name (timeouts.Attributes t)) as [v|]; auto.
  destruct (types.IsNull v || types.IsUnknown v); auto.
  destruct (ParseDuration rt (types.ValueString v)); auto.
Qed.

(** ** Steps of a handler *)

Lemma Append_nil (diags : diag.Diagnostics) : diag.Append diags [] = diags.
Proof. reflexivity. Qed.

Lemma Diagnostics_Append_nil (f : Frame) :
  Diagnostics_Append [] f = (Next tt, f).
Proof. now destruct f as [[st ds] calls]. Qed.

Lemma ReturnIfHasError_false (f : Frame) :
  diag.HasError (Diagnostics (resp f)) = false ->
  ReturnIfHasError f = (Next tt, f).
Proof. unfold ReturnIfHasError. now intros ->. Qed.

Lemma ReturnIfHasError_true (f : Frame) :
  diag.HasError (Diagnostics (resp f)) = true ->
  ReturnIfHasError f = (Returned, f).
Proof. unfold ReturnIfHasError. now intros ->. Qed.

Lemma bind_Next A B (h : Handler A) (k : A -> Handler B) (f f' : Frame)
    (a : A) :
  h f = (Next a, f') -> bind h k f = k a f'.
Proof. unfold bind. now intros ->. Qed.

Lemma bind_Returned A B (h : Handler A) (k : A -> Handler B) (f f' : Frame) :
  h f = (Returned, f') -> bind h k f = (Returned, f').
Proof. unfold bind. now intros ->. Qed.

Lemma bind_ret A B (a : A) (k : A -> Handler B) (f : Frame) :
  bind (ret a) k f = k a f.
Proof. reflexivity. Qed.

Lemma bind_Remote A B (c : RemoteCall) (result : A) (k : A -> Handler B)
    (f : Frame) :
  bind (Remote c result) k f
  = k result {| resp := resp f; remote := (remote f ++ [c])%list |}.
Proof. reflexivity. Qed.

(** The end of a successful Create or Read: the digest is converted, the
    model is stored, and nothing is added to the diagnostics. *)
Lemma store_model (m : imageResourceModel) (dm : imageResourceDigestModel)
    (f : Frame) :
  diag.HasError (Diagnostics (resp f)) = false ->
  (let '(digest, diags) := ObjectValueFrom dm in
   Diagnostics_Append diags ;;
   ReturnIfHasError ;;
   diags <- State_Set (set_Digest digest m) ;;
   Diagnostics_Append diags ;;
   ReturnIfHasError) f
  = (Next tt,
     {| resp := {| State := Some (set_Digest (types.Known dm) m);
                   Diagnostics := Diagnostics (resp f) |};
        remote := remote f |}).
Proof.
  intros E. unfold ObjectValueFrom.
  rewrite (@bind_Next _ _ _ _ _ _ _ (Diagnostics_Append_nil f)).
  rewrite (@bind_Next _ _ _ _ _ _ _ (ReturnIfHasError_false f E)).
  unfold bind, State_Set, tfsdk.Set_.
  rewrite Diagnostics_Append_nil.
  now rewrite ReturnIfHasError_false.
Qed.

(** The start of Create and Read: nothing happens when the response
    already holds an error or the timeout is malformed; otherwise the
    handler goes on with the frame as it was. *)
Lemma guards_error (rt : Runtime) (t : timeouts.Value) (name : string)
    (k : Handler unit) (f : Frame) :
  diag.HasError (Diagnostics (resp f)) = true ->
  (Diagnostics_Append [] ;;
   ReturnIfHasError ;;
   let '(_, diags) := timeouts.getTimeout rt t name (defaultTimeout rt) in
   Diagnostics_Append diags ;;
   ReturnIfHasError ;;
   k) f
  = (Returned, f).
Proof.
  intros E.
  rewrite (@bind_Next _ _ _ _ _ _ _ (Diagnostics_Append_nil f)).
  now rewrite (@bind_Returned _ _ _ _ _ _ (ReturnIfHasError_true f E)).
Qed.

Lemma guards_timeout (rt : Runtime) (t : timeouts.Value) (name : string)
    (k : Handler unit) (f : Frame) :
  diag.HasError (Diagnostics (resp f)) = false ->
  diag.HasError (snd (timeouts.getTimeout rt t name (defaultTimeout rt)))
  = true ->
  (Diagnostics_Append [] ;;
   ReturnIfHasError ;;
   let '(_, diags) := timeouts.getTimeout rt t name (defaultTimeout rt) in
   Diagnostics_Append diags ;;
   ReturnIfHasError ;;
   k) f
  = (Returned,
     {| resp :=
          {| State := State (resp f);
             Diagnostics :=
               diag.Append (Diagnostics (resp f))
                 (snd (timeouts.getTimeout rt t name (defaultTimeout rt))) |};
        remote := remote f |}).
Proof.
  intros E T.
  rewrite (@bind_Next _ _ _ _ _ _ _ (Diagnostics_Append_nil f)).
  rewrite (@bind_Next _ _ _ _ _ _ _ (ReturnIfHasError_false f E)).
  destruct (timeouts.getTimeout rt t name (defaultTimeout rt)) as [d diags].
  simpl in T |- *.
  unfold bind at 1. unfold Diagnostics_Append at 1.
  apply bind_Returned, ReturnIfHasError_true.
  simpl. rewrite HasError_Append, T. apply orb_true_r.
Qed.

Lemma guards_pass (rt : Runtime) (t : timeouts.Value) (name : string)
    (k : Handler unit) (f : Frame) :
  diag.HasError (Diagnostics (resp f)) = false ->
  snd (timeouts.getTimeout rt t name (defaultTimeout rt)) = [] ->
  (Diagnostics_Append [] ;;
   ReturnIfHasError ;;
   let '(_, diags) := timeouts.getTimeout rt t name (defaultTimeout rt) in
   Diagnostics_Append diags ;;
   ReturnIfHasError ;;
   k) f
  = k f.
Proof.
  intros E T.
  rewrite (@bind_Next _ _ _ _ _ _ _ (Diagnostics_Append_nil f)).
  rewrite (@bind_Next _ _ _ _ _ _ _ (ReturnIfHasError_false f E)).
  destruct (timeouts.getTimeout rt t name (defaultTimeout rt)) as [d diags].
  simpl in T. subst diags.
  rewrite (@bind_Next _ _ _ _ _ _ _ (Diagnostics_Append_nil f)).
  now rewrite (@bind_Next _ _ _ _ _ _ _ (ReturnIfHasError_false f E)).
Qed.

(** Unfolding a handler down to its guards. *)
Ltac enter_handler :=
  unfold run, Create, Read, tfsdk.Get, timeouts.Create, timeouts.Read.

(** ** The runs of [Create] *)

Section CreateRuns.

Variable rt : Runtime.
Variable r : imageResource rt.
Variable req : CreateRequest.
Variable resp0 : Response.

#[local] Abbreviation plan := (CreateRequest_Plan req).
#[local] Abbreviation timeoutDiags :=
  (snd (timeouts.Create rt (Timeouts plan) (defaultTimeout rt))).

(** With an error already in the response, Create does nothing. *)
Lemma Create_has_error :
  diag.HasError (Diagnostics resp0) = true ->
  run (Create r req) resp0 = {| resp := resp0; remote := [] |}.
Proof.
  intros E. enter_handler.
  rewrite guards_error; [now destruct resp0 | exact E].
Qed.

(** With a timeout that does not parse, Create reports it and stops. *)
Lemma Create_bad_timeout :
  diag.HasError (Diagnostics resp0) = false ->
  diag.HasError timeoutDiags = true ->
  run (Create r req) resp0
  = {| resp := {| State := State resp0;
                  Diagnostics :=
                    diag.Append (Diagnostics resp0) timeoutDiags |};
       remote := [] |}.
Proof.
  intros E T. enter_handler.
  rewrite guards_timeout; [reflexivity | exact E | exact T].
Qed.

(** With neither source set, Create reports it and stops. *)
Lemma Create_no_source :
  diag.HasError (Diagnostics resp0) = false ->
  timeoutDiags = [] ->
  types.IsNull (SourceSnapshotID plan) = true ->
  types.IsNull (SourceURL plan) = true ->
  run (Create r req) resp0
  = {| resp := {| State := State resp0;
                  Diagnostics :=
                    diag.AddError (Diagnostics resp0) "Error creating image"
                      "One of `source_url` or `source_snapshot_id` must be set"
               |};
       remote := [] |}.
Proof.
  intros E T Es Eu. enter_handler.
  rewrite guards_pass; [| exact E | exact T].
  rewrite Es, Eu. reflexivity.
Qed.

(** From the call on, whatever the source. *)
Lemma Create_reaches_remote (is_ : oxide.ImageSource) :
  diag.HasError (Diagnostics resp0) = false ->
  snd
    ((let params := set_Body_Source is_ (Create_params plan) in
      result <- ImageCreate r params ;;
      match result with
      | inr err =>
          Diagnostics_AddError "Error creating image"
            ("API error: " ++ Error rt err) ;;
          return_
      | inl image =>
          let plan := Create_populate rt image plan in
          let dm := digestModel image in
          let '(digest, diags) := ObjectValueFrom dm in
          Diagnostics_Append diags ;;
          ReturnIfHasError ;;
          let plan := set_Digest digest plan in
          diags <- State_Set plan ;;
          Diagnostics_Append diags ;;
          ReturnIfHasError
      end) {| resp := resp0; remote := [] |})
  = Create_outcome r req resp0 is_.
Proof.
  intros E. unfold Create_outcome, ImageCreate. cbv zeta.
  rewrite bind_Remote.
  destruct (oxide.Client_ImageCreate (client r) _) as [image|err];
    [|reflexivity].
  rewrite store_model; [reflexivity | exact E].
Qed.

Lemma Create_from_snapshot :
  diag.HasError (Diagnostics resp0) = false ->
  timeoutDiags = [] ->
  types.IsNull (SourceSnapshotID plan) = false ->
  run (Create r req) resp0
  = Create_outcome r req resp0 (Create_source_snapshot plan).
Proof.
  intros E T Es. enter_handler.
  rewrite guards_pass; [| exact E | exact T].
  rewrite Es. simpl negb. cbv iota.
  rewrite bind_ret. apply Create_reaches_remote, E.
Qed.

Lemma Create_from_url :
  diag.HasError (Diagnostics resp0) = false ->
  timeoutDiags = [] ->
  types.IsNull (SourceSnapshotID plan) = true ->
  types.IsNull (SourceURL plan) = false ->
  run (Create r req) resp0
  = Create_outcome r req resp0 (Create_source_url plan).
Proof.
  intros E T Es Eu. enter_handler.
  rewrite guards_pass; [| exact E | exact T].
  rewrite Es, Eu. simpl negb. cbv iota.
  rewrite bind_ret. apply Create_reaches_remote, E.
Qed.

End CreateRuns.

(** Create issues a remote call only on a response without error, with
    well-formed timeouts and a source; the call is then the one built
    from the plan, and the run ends in [Create_outcome]. *)
Lemma Create_remote_inv (rt : Runtime) (r : imageResource rt)
    (req : CreateRequest) (resp0 : Response) (c : RemoteCall) :
  In c (remote (run (Create r req) resp0)) ->
  diag.HasError (Diagnostics resp0) = false
  /\ exists is_,
       run (Create r req) resp0 = Create_outcome r req resp0 is_
       /\ c = CallImageCreate
                (set_Body_Source is_ (Create_params (CreateRequest_Plan req)))
       /\ ((types.IsNull (SourceSnapshotID (CreateRequest_Plan req)) = false
            /\ is_ = Create_source_snapshot (CreateRequest_Plan req))
           \/ (types.IsNull (SourceSnapshotID (CreateRequest_Plan req)) = true
               /\ types.IsNull (SourceURL (CreateRequest_Plan req)) = false
               /\ is_ = Create_source_url (CreateRequest_Plan req))).
Proof.
  destruct (diag.HasError (Diagnostics resp0)) eqn:E.
  { rewrite Create_has_error by exact E. intros []. }
  destruct (getTimeout_diags rt (Timeouts (CreateRequest_Plan req))
              timeouts.attributeNameCreate (defaultTimeout rt)) as [T|T].
  2:{ rewrite Create_bad_timeout by assumption. intros []. }
  destruct (types.IsNull (SourceSnapshotID (CreateRequest_Plan req))) eqn:Es.
  - destruct (types.IsNull (SourceURL (CreateRequest_Plan req))) eqn:Eu.
    { rewrite Create_no_source by assumption. intros []. }
    rewrite Create_from_url by assumption.
    intros [<-|[]]. split; [reflexivity|].
    exists (Create_source_url (CreateRequest_Plan req)). auto 6.
  - rewrite Create_from_snapshot by assumption.
    intros [<-|[]]. split; [reflexivity|].
    exists (Create_source_snapshot (CreateRequest_Plan req)). auto 6.
Qed.

(** Create makes at most one remote call. *)
Lemma Create_at_most_one_call (rt : Runtime) (r : imageResource rt)
    (req : CreateRequest) (resp0 : Response) :
  (length (remote (run (Create r req) resp0)) <= 1)%nat.
Proof.
  destruct (remote (run (Create r req) resp0)) as [|c l] eqn:R; simpl; [lia|].
  assert (Hin : In c (remote (run (Create r req) resp0)))
    by (rewrite R; now left).
  apply Create_remote_inv in Hin as [_ [is_ [Hrun _]]].
  rewrite Hrun in R. simpl in R. injection R as _ <-. simpl. lia.
Qed.

Lemma StringEqual_eq (v w : types.Value string) :
  types.StringEqual v w = true <-> v = w.
Proof.
  destruct v, w; simpl; split; try congruence; try reflexivity.
  - intros H. apply String.eqb_eq in H. now subst.
  - intros H. injection H as ->. apply String.eqb_refl.
Qed.

(** ** Create *)

(** C5. When the remote create call fails, Create reports an error whose
    detail contains the message of the client's error, and the state in
    the response is the one it had before. *)
Theorem Create_remote_failure (rt : Runtime) (r : imageResource rt)
    (req : CreateRequest) (resp0 : Response)
    (params : oxide.ImageCreateParams) (err : error rt) :
  In (CallImageCreate params) (remote (run (Create r req) resp0)) ->
  oxide.Client_ImageCreate (client r) params = inr err ->
  State (resp (run (Create r req) resp0)) = State resp0
  /\ diag.HasError (Diagnostics (resp (run (Create r req) resp0))) = true
  /\ exists d,
       In d (Diagnostics (resp (run (Create r req) resp0)))
       /\ diag.IsError d = true
       /\ diag.Summary d = "Error creating image"
       /\ diag.Detail d = "API error: " ++ Error rt err
       /\ Contains (diag.Detail d) (Error rt err) = true.
Proof.
  intros Hin Herr.
  apply Create_remote_inv in Hin as [_ [is_ [-> [Hp _]]]].
  injection Hp as ->. unfold Create_outcome. simpl. rewrite Herr. simpl.
  split; [reflexivity|]. split; [apply HasError_AddError|].
  exists (diag.NewErrorDiagnostic "Error creating image"
            ("API error: " ++ Error rt err)).
  split; [apply In_AddError|].
  repeat split. apply Contains_suffix.
Qed.

Lemma Create_remote_failure_witness :
  State (resp (run (Create example.failing
                      {| CreateRequest_Plan := example.from_url |})
                 example.fresh)) = None
  /\ Contains
       (diag.Detail
          (hd (diag.NewErrorDiagnostic EmptyString EmptyString)
             (Diagnostics
                (resp (run (Create example.failing
                              {| CreateRequest_Plan := example.from_url |})
                         example.fresh)))))
       "Status: 500 Internal Server Error" = true.
Proof.
  destruct (@Create_remote_failure example.rt example.failing
              {| CreateRequest_Plan := example.from_url |} example.fresh
              (set_Body_Source (Create_source_url example.from_url)
                 (Create_params example.from_url))
              "POST /v1/images FAILED: Status: 500 Internal Server Error")
    as [Hstate _].
  - simpl. left. reflexivity.
  - reflexivity.
  - split; [exact Hstate | reflexivity].
Defined.

(** C6. On a successful remote create, the state Create records has its
    computed attributes [id], [size], [time_created], [time_modified] and
    [digest] taken from the image the create call returned, whatever the
    plan held for them: the identifier and the digest as they are, the
    times printed, and the size converted to [int64], which is the remote
    size itself when that is below 2^63. *)
Theorem Create_success_computed (rt : Runtime) (r : imageResource rt)
    (req : CreateRequest) (resp0 : Response)
    (params : oxide.ImageCreateParams) (image : oxide.Image (Time rt)) :
  In (CallImageCreate params) (remote (run (Create r req) resp0)) ->
  oxide.Client_ImageCreate (client r) params = inl image ->
  exists st,
    State (resp (run (Create r req) resp0)) = Some st
    /\ ID st = types.Known (oxide.Image_Id image)
    /\ Size st = types.Known (int64 (oxide.Image_Size image))
    /\ (0 <= oxide.Image_Size image < 2 ^ 63 ->
        Size st = types.Known (oxide.Image_Size image))
    /\ TimeCreated st
       = types.Known (Time_String rt (oxide.Image_TimeCreated image))
    /\ TimeModified st
       = types.Known (Time_String rt (oxide.Image_TimeModified image))
    /\ Digest st
       = types.Known
           {| Type_ :=
                types.Known (oxide.Digest_Type (oxide.Image_Digest image));
              Value :=
                types.Known (oxide.Digest_Value (oxide.Image_Digest image))
           |}.
Proof.
  intros Hin Hok.
  apply Create_remote_inv in Hin as [_ [is_ [-> [Hp _]]]].
  injection Hp as ->. unfold Create_outcome. simpl. rewrite Hok.
  eexists. split; [reflexivity|]. repeat split.
  simpl. intros Hrange. now apply Int64Value_in_range.
Qed.

Lemma Create_success_computed_witness :
  exists st,
    State (resp (run (Create example.working
                        {| CreateRequest_Plan := example.from_url |})
                   example.fresh)) = Some st
    /\ ID st = types.Known "4f7a1c2e"
    /\ Size st = types.Known 1073741824.
Proof.
  destruct (@Create_success_computed example.rt example.working
              {| CreateRequest_Plan := example.from_url |} example.fresh
              (set_Body_Source (Create_source_url example.from_url)
                 (Create_params example.from_url))
              example.image)
    as [st [Hst [Hid [_ [Hsize _]]]]].
  - simpl. left. reflexivity.
  - reflexivity.
  - exists st. split; [exact Hst|]. split; [exact Hid|].
    apply Hsize. simpl. lia.
Defined.

(** C10. When [source_url] is the populated variant, the source of the
    create request has the hard-coded type
    [ImageSourceTypeYouCanBootAnythingAsLongAsItsAlpine] if the value of
    [source_url] is the string "you_can_boot_anything_as_long_as_its_alpine",
    and the URL type for every other value. *)
Theorem Create_source_url_type (rt : Runtime) (r : imageResource rt)
    (req : CreateRequest) (resp0 : Response)
    (params : oxide.ImageCreateParams) :
  In (CallImageCreate params) (remote (run (Create r req) resp0)) ->
  types.IsNull (SourceSnapshotID (CreateRequest_Plan req)) = true ->
  types.IsNull (SourceURL (CreateRequest_Plan req)) = false ->
  (SourceURL (CreateRequest_Plan req)
   = types.Known "you_can_boot_anything_as_long_as_its_alpine" ->
   oxide.ImageSource_Type (oxide.ImageCreate_Source (oxide.Body params))
   = oxide.ImageSourceTypeYouCanBootAnythingAsLongAsItsAlpine)
  /\ (SourceURL (CreateRequest_Plan req)
      <> types.Known "you_can_boot_anything_as_long_as_its_alpine" ->
      oxide.ImageSource_Type (oxide.ImageCreate_Source (oxide.Body params))
      = oxide.ImageSourceTypeUrl).
Proof.
  intros Hin Es Eu.
  apply Create_remote_inv in Hin as [_ [is_ [_ [Hp Hsrc]]]].
  injection Hp as ->.
  destruct Hsrc as [[Es' _]|[_ [_ ->]]]; [congruence|].
  simpl.
  destruct (types.StringEqual (SourceURL (CreateRequest_Plan req))
              (types.StringValue "you_can_boot_anything_as_long_as_its_alpine"))
    eqn:Q.
  - split; [reflexivity|]. intros N. apply StringEqual_eq in Q. now elim N.
  - split; [|reflexivity]. intros Y. apply StringEqual_eq in Y.
    unfold types.StringValue in Q. congruence.
Qed.

Lemma Create_source_url_type_witness :
  oxide.ImageSource_Type
    (oxide.ImageCreate_Source
       (oxide.Body
          (set_Body_Source (Create_source_url example.alpine)
             (Create_params example.alpine))))
  = oxide.ImageSourceTypeYouCanBootAnythingAsLongAsItsAlpine.
Proof.
  apply (@Create_source_url_type example.rt example.working
           {| CreateRequest_Plan := example.alpine |} example.fresh).
  - simpl. left. reflexivity.
  - reflexivity.
  - reflexivity.
  - reflexivity.
Defined.

(** ** Validation of the configuration *)

Lemma fold_Append_In (X : Type) (g : X -> diag.Diagnostics) (l : list X)
    (acc : diag.Diagnostics) (d : diag.Diagnostic) :
  In d acc \/ (exists x, In x l /\ In d (g x)) ->
  In d (fold_left (fun diags x => diag.Append diags (g x)) l acc).
Proof.
  revert acc. induction l as [|y l IH]; intros acc H; simpl.
  - destruct H as [H|[x [[] _]]]. exact H.
  - apply IH. destruct H as [H|[x [[->|Hx] Hd]]].
    + left. apply In_Append. now left.
    + left. apply In_Append. now right.
    + right. now exists x.
Qed.

Lemma fold_Append_In_inv (X : Type) (g : X -> diag.Diagnostics) (l : list X)
    (acc : diag.Diagnostics) (d : diag.Diagnostic) :
  In d (fold_left (fun diags x => diag.Append diags (g x)) l acc) ->
  In d acc \/ (exists x, In x l /\ In d (g x)).
Proof.
  revert acc. induction l as [|y l IH]; intros acc H; simpl in H.
  - now left.
  - apply IH in H as [H|[x [Hx Hd]]].
    + apply In_Append_inv in H as [H|H]; [now left|].
      right. exists y. split; [now left | exact H].
    + right. exists x. split; [now right | exact Hd].
Qed.

(** What an attribute's own validators report, its validation reports. *)
Lemma AttributeValidateValue_own (rt : Runtime) (config : imageResourceModel)
    (path : string) (configValue : attr.Value) (a : schema.Attribute)
    (v : schema.Validator) (d : diag.Diagnostic) :
  In v (schema.Validators (schema.fields a)) ->
  In d (schemavalidator.Validate rt config path configValue v) ->
  In d (AttributeValidateValue rt config path configValue a).
Proof.
  intros Hv Hd.
  assert (Hown :
    In d (fold_left
            (fun diags v =>
               diag.Append diags
                 (schemavalidator.Validate rt config path configValue v))
            (schema.Validators (schema.fields a)) [])).
  { apply (fold_Append_In
             (fun v => schemavalidator.Validate rt config path configValue v)).
    right. now exists v. }
  destruct a as [f|f|f attributes]; simpl in *; try exact Hown.
  destruct (attr.IsNull configValue || attr.IsUnknown configValue);
    [exact Hown|].
  revert Hown.
  generalize (fold_left
                (fun diags v =>
                   diag.Append diags
                     (schemavalidator.Validate rt config path configValue v))
                (schema.Validators f) []).
  induction attributes as [|[name nestedAttr] rest IH]; intros acc Hacc;
    [exact Hacc|].
  apply IH. apply In_Append. now left.
Qed.

(** A diagnostic of one validator of one attribute of the schema is a
    diagnostic of the validation. *)
Lemma ValidateConfig_In (rt : Runtime) (s : schema.Schema)
    (config : imageResourceModel) (path : string) (a : schema.Attribute)
    (configValue : attr.Value) (v : schema.Validator) (d : diag.Diagnostic) :
  In (path, a) s ->
  GetAttribute config path = Some configValue ->
  In v (schema.Validators (schema.fields a)) ->
  In d (schemavalidator.Validate rt config path configValue v) ->
  In d (ValidateConfig rt s config).
Proof.
  intros Hs Hg Hv Hd. unfold ValidateConfig.
  apply (fold_Append_In
           (fun entry => AttributeValidate rt config (fst entry) (snd entry))).
  right. exists (path, a). split; [exact Hs|].
  unfold AttributeValidate. simpl. rewrite Hg.
  now apply AttributeValidateValue_own with v.
Qed.

(** The three findings of the validators of the two sources. *)

Lemma ValidateConfig_no_source (rt : Runtime) (config : imageResourceModel) :
  SourceSnapshotID config = types.Null ->
  SourceURL config = types.Null ->
  In (schemavalidator.InvalidAttributeCombinationDiagnostic
        "source_snapshot_id"
        "No attribute specified when one (and only one) of [source_url,source_snapshot_id] is required")
     (ValidateConfig rt Schema config).
Proof.
  intros Hs Hu.
  eapply ValidateConfig_In with
    (path := "source_snapshot_id")
    (v := schema.ExactlyOneOf ["source_url"; "source_snapshot_id"]).
  - unfold Schema. simpl. do 6 right. left. reflexivity.
  - reflexivity.
  - simpl. left. reflexivity.
  - rewrite Hs. simpl. unfold schemavalidator.ExactlyOneOf. simpl.
    rewrite Hu. simpl. left. reflexivity.
Qed.

Lemma ValidateConfig_both_sources (rt : Runtime) (config : imageResourceModel)
    (snapshot url : string) :
  SourceSnapshotID config = types.Known snapshot ->
  SourceURL config = types.Known url ->
  In (schemavalidator.InvalidAttributeCombinationDiagnostic
        "source_snapshot_id"
        "2 attributes specified when one (and only one) of [source_url,source_snapshot_id] is required")
     (ValidateConfig rt Schema config).
Proof.
  intros Hs Hu.
  eapply ValidateConfig_In with
    (path := "source_snapshot_id")
    (v := schema.ExactlyOneOf ["source_url"; "source_snapshot_id"]).
  - unfold Schema. simpl. do 6 right. left. reflexivity.
  - reflexivity.
  - simpl. left. reflexivity.
  - rewrite Hs. simpl. unfold schemavalidator.ExactlyOneOf. simpl.
    rewrite Hu. simpl. left. reflexivity.
Qed.

Lemma ValidateConfig_url_without_block_size (rt : Runtime)
    (config : imageResourceModel) :
  types.IsNull (SourceURL config) = false ->
  BlockSize config = types.Null ->
  In (schemavalidator.InvalidAttributeCombinationDiagnostic "source_url"
        ("Attribute " ++ fmt_q "block_size" ++ " must be specified when "
           ++ fmt_q "source_url" ++ " is specified"))
     (ValidateConfig rt Schema config).
Proof.
  intros Eu Eb.
  eapply ValidateConfig_In with
    (path := "source_url") (v := schema.AlsoRequires ["block_size"]).
  - unfold Schema. simpl. do 7 right. left. reflexivity.
  - reflexivity.
  - simpl. left. reflexivity.
  - simpl. unfold schemavalidator.AlsoRequires. simpl.
    rewrite Eu, Eb. simpl. left. reflexivity.
Qed.

(** ** Creating an image through validation *)

(** A configuration the validators reject is not applied: the
    diagnostics of the validation are returned and [Create] is not
    invoked. *)
Lemma ValidatedCreate_rejected (rt : Runtime) (r : imageResource rt)
    (config : imageResourceModel) (req : CreateRequest) (resp0 : Response) :
  diag.HasError (ValidateConfig rt Schema config) = true ->
  run (ValidatedCreate r config req) resp0
  = {| resp :=
         {| State := State resp0;
            Diagnostics :=
              diag.Append (Diagnostics resp0)
                (ValidateConfig rt Schema config) |};
       remote := [] |}.
Proof.
  intros V. unfold run, ValidatedCreate.
  unfold bind at 1. unfold Diagnostics_Append at 1.
  erewrite bind_Returned; [reflexivity|].
  apply ReturnIfHasError_true. simpl.
  rewrite HasError_Append, V. apply orb_true_r.
Qed.

(** A configuration the validators accept is applied: what follows is
    the run of [Create]. *)
Lemma ValidatedCreate_accepted (rt : Runtime) (r : imageResource rt)
    (config : imageResourceModel) (req : CreateRequest) (resp0 : Response) :
  ValidateConfig rt Schema config = [] ->
  diag.HasError (Diagnostics resp0) = false ->
  run (ValidatedCreate r config req) resp0 = run (Create r req) resp0.
Proof.
  intros V E. unfold run, ValidatedCreate. rewrite V.
  rewrite (@bind_Next _ _ _ _ _ _ _ (Diagnostics_Append_nil _)).
  now rewrite (@bind_Next _ _ _ _ _ _ _
                 (ReturnIfHasError_false {| resp := resp0; remote := [] |} E)).
Qed.

(** C1. Creating an image from a configuration with no source variant
    populated, or with both [source_snapshot_id] and [source_url]
    populated, returns an error-severity validation diagnostic (the
    "Invalid Attribute Combination" that the [ExactlyOneOf] validator of
    the schema reports at [source_snapshot_id]), makes no remote create
    call and leaves the state as it was, whatever the plan of the
    request and whatever the response held before. *)
Theorem ValidatedCreate_source_union (rt : Runtime) (r : imageResource rt)
    (config : imageResourceModel) (req : CreateRequest) (resp0 : Response) :
  (SourceSnapshotID config = types.Null /\ SourceURL config = types.Null)
  \/ (exists snapshot url,
        SourceSnapshotID config = types.Known snapshot
        /\ SourceURL config = types.Known url) ->
  remote (run (ValidatedCreate r config req) resp0) = []
  /\ diag.HasError
       (Diagnostics (resp (run (ValidatedCreate r config req) resp0))) = true
  /\ State (resp (run (ValidatedCreate r config req) resp0)) = State resp0
  /\ exists d,
       In d (Diagnostics (resp (run (ValidatedCreate r config req) resp0)))
       /\ In d (ValidateConfig rt Schema config)
       /\ diag.IsError d = true
       /\ diag.Summary d = "Invalid Attribute Combination"
       /\ diag.Path d = Some "source_snapshot_id".
Proof.
  intros H.
  assert (Hd : exists d,
             In d (ValidateConfig rt Schema config)
             /\ diag.IsError d = true
             /\ diag.Summary d = "Invalid Attribute Combination"
             /\ diag.Path d = Some "source_snapshot_id").
  { destruct H as [[Hs Hu]|[snapshot [url [Hs Hu]]]].
    - eexists. split; [now apply ValidateConfig_no_source|]. repeat split.
    - eexists. split; [now apply ValidateConfig_both_sources with snapshot url|].
      repeat split. }
  destruct Hd as [d [Hin [He [Hsum Hpath]]]].
  rewrite ValidatedCreate_rejected by (now apply HasError_In with d).
  simpl. split; [reflexivity|]. split.
  - rewrite HasError_Append, (HasError_In _ _ Hin He). apply orb_true_r.
  - split; [reflexivity|]. exists d. repeat split; try assumption.
    apply In_Append. now right.
Qed.

Lemma ValidatedCreate_source_union_witness :
  remote (run (ValidatedCreate example.working example.no_source
                 {| CreateRequest_Plan := example.no_source |})
            example.fresh) = []
  /\ remote (run (ValidatedCreate example.working example.both_sources
                    {| CreateRequest_Plan := example.both_sources |})
               example.fresh) = [].
Proof.
  split.
  - apply (@ValidatedCreate_source_union example.rt example.working
             example.no_source {| CreateRequest_Plan := example.no_source |}
             example.fresh).
    left. split; reflexivity.
  - apply (@ValidatedCreate_source_union example.rt example.working
             example.both_sources
             {| CreateRequest_Plan := example.both_sources |} example.fresh).
    right. exists "c0ffee11", "http://images.example/alpine.raw".
    split; reflexivity.
Defined.

(** C8. Creating an image from a configuration with [source_url]
    populated and [block_size] unset returns an error-severity validation
    diagnostic, the "Invalid Attribute Combination" that the
    [AlsoRequires] validator of the schema reports at [source_url] and
    whose detail names [block_size] and [source_url]; no remote create
    call is made and the state is left as it was. *)
Theorem ValidatedCreate_url_without_block_size (rt : Runtime)
    (r : imageResource rt) (config : imageResourceModel)
    (req : CreateRequest) (resp0 : Response) :
  types.IsNull (SourceURL config) = false ->
  BlockSize config = types.Null ->
  remote (run (ValidatedCreate r config req) resp0) = []
  /\ diag.HasError
       (Diagnostics (resp (run (ValidatedCreate r config req) resp0))) = true
  /\ State (resp (run (ValidatedCreate r config req) resp0)) = State resp0
  /\ exists d,
       In d (Diagnostics (resp (run (ValidatedCreate r config req) resp0)))
       /\ In d (ValidateConfig rt Schema config)
       /\ diag.IsError d = true
       /\ diag.Path d = Some "source_url"
       /\ diag.Summary d = "Invalid Attribute Combination"
       /\ diag.Detail d
          = "Attribute " ++ fmt_q "block_size" ++ " must be specified when "
              ++ fmt_q "source_url" ++ " is specified"
       /\ Contains (diag.Detail d) "block_size" = true
       /\ Contains (diag.Detail d) "source_url" = true.
Proof.
  intros Eu Eb.
  pose proof (ValidateConfig_url_without_block_size rt config Eu Eb) as Hin.
  assert (He : diag.HasError (ValidateConfig rt Schema config) = true)
    by (now apply HasError_In with (1 := Hin)).
  rewrite ValidatedCreate_rejected by exact He.
  simpl. split; [reflexivity|]. split.
  - rewrite HasError_Append, He. apply orb_true_r.
  - split; [reflexivity|]. eexists. split.
    + apply In_Append. right. exact Hin.
    + split; [exact Hin|]. repeat split.
Qed.

Lemma ValidatedCreate_url_without_block_size_witness :
  remote (run (ValidatedCreate example.working
                 example.from_url_no_block_size
                 {| CreateRequest_Plan := example.from_url_no_block_size |})
            example.fresh) = []
  /\ diag.HasError
       (Diagnostics
          (resp (run (ValidatedCreate example.working
                        example.from_url_no_block_size
                        {| CreateRequest_Plan :=
                             example.from_url_no_block_size |})
                   example.fresh))) = true.
Proof.
  destruct (@ValidatedCreate_url_without_block_size example.rt
              example.working example.from_url_no_block_size
              {| CreateRequest_Plan := example.from_url_no_block_size |}
              example.fresh eq_refl eq_refl)
    as [Hr [He _]].
  split; assumption.
Defined.

(** ** The runs of [Read] *)

Section ReadRuns.

Variable rt : Runtime.
Variable r : imageResource rt.
Variable req : ReadRequest.
Variable resp0 : Response.

#[local] Abbreviation state := (ReadRequest_State req).
#[local] Abbreviation timeoutDiags :=
  (snd (timeouts.Read rt (Timeouts state) (defaultTimeout rt))).

Lemma Read_has_error :
  diag.HasError (Diagnostics resp0) = true ->
  run (Read r req) resp0 = {| resp := resp0; remote := [] |}.
Proof.
  intros E. enter_handler.
  rewrite guards_error; [now destruct resp0 | exact E].
Qed.

Lemma Read_bad_timeout :
  diag.HasError (Diagnostics resp0) = false ->
  diag.HasError timeoutDiags = true ->
  run (Read r req) resp0
  = {| resp := {| State := State resp0;
                  Diagnostics :=
                    diag.Append (Diagnostics resp0) timeoutDiags |};
       remote := [] |}.
Proof.
  intros E T. enter_handler.
  rewrite guards_timeout; [reflexivity | exact E | exact T].
Qed.

Lemma Read_reaches_remote :
  diag.HasError (Diagnostics resp0) = false ->
  timeoutDiags = [] ->
  run (Read r req) resp0 = Read_outcome r req resp0.
Proof.
  intros E T. enter_handler.
  rewrite guards_pass; [| exact E | exact T].
  unfold Read_outcome, ImageView. cbv zeta.
  rewrite bind_Remote.
  destruct (oxide.Client_ImageView (client r) _) as [image|err].
  - rewrite store_model; [reflexivity | exact E].
  - now destruct (is404 rt err).
Qed.

End ReadRuns.

(** Read issues a remote call only on a response without error and with
    well-formed timeouts; the call is then the view of the recorded
    identifier, and the run ends in [Read_outcome]. *)
Lemma Read_remote_inv (rt : Runtime) (r : imageResource rt)
    (req : ReadRequest) (resp0 : Response) (c : RemoteCall) :
  In c (remote (run (Read r req) resp0)) ->
  diag.HasError (Diagnostics resp0) = false
  /\ run (Read r req) resp0 = Read_outcome r req resp0
  /\ c = CallImageView
           {| oxide.ImageViewParams_Image :=
                types.ValueString (ID (ReadRequest_State req)) |}.
Proof.
  destruct (diag.HasError (Diagnostics resp0)) eqn:E.
  { rewrite Read_has_error by exact E. intros []. }
  destruct (getTimeout_diags rt (Timeouts (ReadRequest_State req))
              timeouts.attributeNameRead (defaultTimeout rt)) as [T|T].
  2:{ rewrite Read_bad_timeout by assumption. intros []. }
  rewrite Read_reaches_remote by assumption.
  intros [<-|[]]. auto.
Qed.

(** ** Read *)

(** C3. When the remote view call reports not-found, Read removes the
    resource from the state and adds no diagnostic, so the response holds
    no error; on any other failure of the call Read reports an error
    carrying the client's message and leaves the state as it was. *)
Theorem Read_remote_failure (rt : Runtime) (r : imageResource rt)
    (req : ReadRequest) (resp0 : Response)
    (params : oxide.ImageViewParams) (err : error rt) :
  In (CallImageView params) (remote (run (Read r req) resp0)) ->
  oxide.Client_ImageView (client r) params = inr err ->
  (is404 rt err = true ->
   State (resp (run (Read r req) resp0)) = None
   /\ Diagnostics (resp (run (Read r req) resp0)) = Diagnostics resp0
   /\ diag.HasError (Diagnostics (resp (run (Read r req) resp0))) = false)
  /\ (is404 rt err = false ->
      State (resp (run (Read r req) resp0)) = State resp0
      /\ diag.HasError (Diagnostics (resp (run (Read r req) resp0))) = true
      /\ In (diag.NewErrorDiagnostic "Unable to read image:"
               ("API error: " ++ Error rt err))
            (Diagnostics (resp (run (Read r req) resp0)))).
Proof.
  intros Hin Herr.
  apply Read_remote_inv in Hin as [E [-> Hp]].
  injection Hp as ->. unfold Read_outcome. simpl. rewrite Herr.
  split; intros ->; simpl.
  - auto.
  - auto with diags.
Qed.

Lemma Read_remote_failure_witness :
  State (resp (run (Read example.absent
                      {| ReadRequest_State := example.recorded |})
                 example.prior)) = None
  /\ diag.HasError
       (Diagnostics
          (resp (run (Read example.absent
                        {| ReadRequest_State := example.recorded |})
                   example.prior))) = false
  /\ State (resp (run (Read example.failing
                         {| ReadRequest_State := example.recorded |})
                    example.prior)) = Some example.recorded
  /\ diag.HasError
       (Diagnostics
          (resp (run (Read example.failing
                        {| ReadRequest_State := example.recorded |})
                   example.prior))) = true.
Proof.
  destruct (@Read_remote_failure example.rt example.absent
              {| ReadRequest_State := example.recorded |} example.prior
              {| oxide.ImageViewParams_Image := "4f7a1c2e" |}
              "GET /v1/images/4f7a1c2e FAILED: Status: 404 Not Found")
    as [Habsent _];
    [simpl; left; reflexivity | reflexivity |].
  destruct (@Read_remote_failure example.rt example.failing
              {| ReadRequest_State := example.recorded |} example.prior
              {| oxide.ImageViewParams_Image := "4f7a1c2e" |}
              "GET /v1/images/4f7a1c2e FAILED: Status: 500 Internal Server Error")
    as [_ Hfailing];
    [simpl; left; reflexivity | reflexivity |].
  destruct Habsent as [H1 [_ H2]]; [reflexivity|].
  destruct Hfailing as [H3 [H4 _]]; [reflexivity|].
  auto.
Defined.

(** C7. On a successful Read the recorded state is overwritten from the
    remote image: [block_size], [description], [id], [name], [os],
    [size], [time_created], [time_modified], [version] and [digest]
    always; [project_id] only when the image has a project identifier
    and [source_url] only when it has a URL, each keeping its prior value
    when the remote field is empty.  ([source_snapshot_id] and
    [timeouts], which the image does not carry, keep their prior
    values.) *)
Theorem Read_success_refresh (rt : Runtime) (r : imageResource rt)
    (req : ReadRequest) (resp0 : Response)
    (params : oxide.ImageViewParams) (image : oxide.Image (Time rt)) :
  In (CallImageView params) (remote (run (Read r req) resp0)) ->
  oxide.Client_ImageView (client r) params = inl image ->
  exists st,
    State (resp (run (Read r req) resp0)) = Some st
    /\ (oxide.Image_ProjectId image = EmptyString ->
        ProjectID st = ProjectID (ReadRequest_State req))
    /\ (oxide.Image_ProjectId image <> EmptyString ->
        ProjectID st = types.Known (oxide.Image_ProjectId image))
    /\ (oxide.Image_Url image = EmptyString ->
        SourceURL st = SourceURL (ReadRequest_State req))
    /\ (oxide.Image_Url image <> EmptyString ->
        SourceURL st = types.Known (oxide.Image_Url image))
    /\ BlockSize st = types.Known (int64 (oxide.Image_BlockSize image))
    /\ Description st = types.Known (oxide.Image_Description image)
    /\ ID st = types.Known (oxide.Image_Id image)
    /\ Name st = types.Known (oxide.Image_Name image)
    /\ OS st = types.Known (oxide.Image_Os image)
    /\ Size st = types.Known (int64 (oxide.Image_Size image))
    /\ TimeCreated st
       = types.Known (Time_String rt (oxide.Image_TimeCreated image))
    /\ TimeModified st
       = types.Known (Time_String rt (oxide.Image_TimeModified image))
    /\ Version st = types.Known (oxide.Image_Version image)
    /\ Digest st
       = types.Known
           {| Type_ :=
                types.Known (oxide.Digest_Type (oxide.Image_Digest image));
              Value :=
                types.Known (oxide.Digest_Value (oxide.Image_Digest image))
           |}
    /\ SourceSnapshotID st = SourceSnapshotID (ReadRequest_State req)
    /\ Timeouts st = Timeouts (ReadRequest_State req).
Proof.
  intros Hin Hok.
  apply Read_remote_inv in Hin as [E [-> Hp]].
  injection Hp as ->. unfold Read_outcome. simpl. rewrite Hok.
  eexists. split; [reflexivity|].
  unfold Read_refresh.
  destruct (String.eqb_spec (oxide.Image_ProjectId image) EmptyString)
    as [Pe|Pn];
    destruct (String.eqb_spec (oxide.Image_Url image) EmptyString)
      as [Ue|Un];
    simpl; repeat split; intros; congruence.
Qed.

Lemma Read_success_refresh_witness :
  exists st,
    State (resp (run (Read example.working
                        {| ReadRequest_State := example.recorded |})
                   example.prior)) = Some st
    /\ ProjectID st = types.Known "9d2c6f1b"
    /\ SourceURL st = types.Null
    /\ Version st = types.Known "3.16".
Proof.
  destruct (@Read_success_refresh example.rt example.working
              {| ReadRequest_State := example.recorded |} example.prior
              {| oxide.ImageViewParams_Image := "4f7a1c2e" |}
              example.image)
    as (st & Hst & Hp & _ & Hu & _ & _ & _ & _ & _ & _ & _ & _ & _ & Hv & _);
    [simpl; left; reflexivity | reflexivity |].
  exists st. split; [exact Hst|].
  split; [apply Hp; reflexivity|].
  split; [apply Hu; reflexivity | exact Hv].
Defined.

(** ** Update and Delete *)

Lemma Update_run (rt : Runtime) (r : imageResource rt) (req : UpdateRequest)
    (resp0 : Response) :
  run (Update r req) resp0
  = {| resp :=
         {| State := State resp0;
            Diagnostics :=
              diag.AddError (Diagnostics resp0) "Error updating image"
                "the oxide API currently does not support updating images" |};
       remote := [] |}.
Proof. reflexivity. Qed.

Lemma Delete_run (rt : Runtime) (r : imageResource rt) (req : DeleteRequest)
    (resp0 : Response) :
  run (Delete r req) resp0
  = {| resp :=
         {| State := State resp0;
            Diagnostics :=
              diag.AddError (Diagnostics resp0) "Error deleting image"
                "the oxide API currently does not support deleting images" |};
       remote := [] |}.
Proof. reflexivity. Qed.

(** C2. Whatever the request and the response so far, Update reports the
    error "the oxide API currently does not support updating images",
    leaves the state of the response (the prior state) as it is, and
    makes no remote call. *)
Theorem Update_unsupported (rt : Runtime) (r : imageResource rt)
    (req : UpdateRequest) (resp0 : Response) :
  State (resp (run (Update r req) resp0)) = State resp0
  /\ remote (run (Update r req) resp0) = []
  /\ diag.HasError (Diagnostics (resp (run (Update r req) resp0))) = true
  /\ In (diag.NewErrorDiagnostic "Error updating image"
           "the oxide API currently does not support updating images")
        (Diagnostics (resp (run (Update r req) resp0)))
  /\ Contains "the oxide API currently does not support updating images"
       "does not support" = true.
Proof.
  rewrite Update_run. simpl.
  auto with diags.
Qed.

(** C4, as the code has it.  Deleting images is disabled: whatever the
    request and the response so far, and whatever the remote API would
    say about the identifier, Delete reports the error "the oxide API
    currently does not support deleting images", makes no remote call and
    leaves the state of the response as it is. *)
Theorem Delete_unsupported (rt : Runtime) (r : imageResource rt)
    (req : DeleteRequest) (resp0 : Response) :
  diag.HasError (Diagnostics (resp (run (Delete r req) resp0))) = true
  /\ In (diag.NewErrorDiagnostic "Error deleting image"
           "the oxide API currently does not support deleting images")
        (Diagnostics (resp (run (Delete r req) resp0)))
  /\ remote (run (Delete r req) resp0) = []
  /\ State (resp (run (Delete r req) resp0)) = State resp0.
Proof.
  rewrite Delete_run. simpl.
  auto with diags.
Qed.

(** C4 as stated fails: for a recorded image that the remote API reports
    as not found, Delete on a response without diagnostics returns an
    error. *)
Lemma Delete_absent_counterexample :
  oxide.Client_ImageView (client example.absent)
    {| oxide.ImageViewParams_Image :=
         types.ValueString (ID example.recorded) |}
  = inr "GET /v1/images/4f7a1c2e FAILED: Status: 404 Not Found"
  /\ is404 example.rt
       "GET /v1/images/4f7a1c2e FAILED: Status: 404 Not Found" = true
  /\ diag.HasError (Diagnostics example.prior) = false
  /\ diag.HasError
       (Diagnostics
          (resp (run (Delete example.absent
                        {| DeleteRequest_State := example.recorded |})
                   example.prior))) = true.
Proof. repeat split. Qed.

(** ** The schema *)

Lemma lookup_In (s : schema.Schema) (name : string) (a : schema.Attribute) :
  schema.lookup name s = Some a -> In (name, a) s.
Proof.
  induction s as [|[k b] s IH]; simpl; [discriminate|].
  destruct (String.eqb_spec k name) as [->|_].
  - intros H. injection H as ->. now left.
  - intros H. right. now apply IH.
Qed.

Lemma RequiresReplace_In (s : schema.Schema) (plan state : imageResourceModel)
    (name : string) (a : schema.Attribute) :
  schema.lookup name s = Some a ->
  AttributeModifyPlan plan state name a = true ->
  In name (RequiresReplace s plan state).
Proof.
  intros Hl Hm. unfold RequiresReplace.
  apply in_map_iff. exists (name, a). split; [reflexivity|].
  apply filter_In. split; [now apply lookup_In | exact Hm].
Qed.

Lemma Int64Equal_eq (v w : types.Int64) :
  types.Int64Equal v w = true <-> v = w.
Proof.
  destruct v, w; simpl; split; try congruence; try reflexivity.
  - intros H. apply Z.eqb_eq in H. now subst.
  - intros H. injection H as ->. apply Z.eqb_refl.
Qed.

Lemma String_changed (v w : types.Value string) :
  Some (attr.String v) <> Some (attr.String w) ->
  negb (types.StringEqual v w) = true.
Proof.
  intros H. destruct (types.StringEqual v w) eqn:E; [|reflexivity].
  apply StringEqual_eq in E. now subst.
Qed.

Lemma Int64_changed (v w : types.Int64) :
  Some (attr.Int64 v) <> Some (attr.Int64 w) ->
  negb (types.Int64Equal v w) = true.
Proof.
  intros H. destruct (types.Int64Equal v w) eqn:E; [|reflexivity].
  apply Int64Equal_eq in E. now subst.
Qed.

Lemma attr_Equal_refl (v : attr.Value) : attr.Equal v v = true.
Proof.
  assert (S : forall x : types.Value string, types.StringEqual x x = true)
    by (intros x; now apply StringEqual_eq).
  destruct v as [x|x|x|x]; simpl.
  - apply S.
  - now apply Int64Equal_eq.
  - destruct x as [| |[t w]]; simpl; try reflexivity.
    unfold digest_eqb. simpl. now rewrite !S.
  - destruct x as [| |m]; simpl; try reflexivity.
    induction m as [|[k w] m IH]; simpl; [reflexivity|].
    now rewrite String.eqb_refl, S, IH.
Qed.

(** A plan equal to the prior state asks for no replacement. *)
Lemma RequiresReplace_unchanged (s : schema.Schema) (m : imageResourceModel) :
  RequiresReplace s m m = [].
Proof.
  unfold RequiresReplace.
  induction s as [|[path a] s IH]; simpl; [reflexivity|].
  assert (E : AttributeModifyPlan m m path a = false).
  { unfold AttributeModifyPlan.
    destruct (GetAttribute m path) as [v|]; [|reflexivity].
    induction (schema.PlanModifiers (schema.fields a)) as [|[] l IHl];
      simpl; [reflexivity|].
    now rewrite attr_Equal_refl. }
  now rewrite E.
Qed.

(** The attributes with a [RequiresReplace] plan modifier are the eight
    attributes of the image that the user sets; [timeouts] has none. *)
Lemma Schema_RequiresReplace_attributes :
  map fst (filter (fun entry => schema.hasRequiresReplace (snd entry)) Schema)
  = ["name"; "project_id"; "description"; "os"; "version"; "block_size";
     "source_snapshot_id"; "source_url"].
Proof. reflexivity. Qed.

(** C9. Each of [name], [project_id], [description], [os], [version],
    [block_size], [source_snapshot_id] and [source_url] is declared in
    the schema with the [RequiresReplace] plan modifier, so a plan in
    which its value differs from the value in the prior state requires
    the resource to be replaced; and Update, if it is invoked, makes no
    remote call and returns an error. *)
Theorem Schema_immutable_attributes (name : string) :
  In name ["name"; "project_id"; "description"; "os"; "version";
           "block_size"; "source_snapshot_id"; "source_url"] ->
  (exists a,
     schema.lookup name Schema = Some a
     /\ schema.hasRequiresReplace a = true
     /\ schema.Computed (schema.fields a) = false)
  /\ (forall plan state,
        GetAttribute plan name <> GetAttribute state name ->
        In name (RequiresReplace Schema plan state))
  /\ (forall rt (r : imageResource rt) req resp0,
        remote (run (Update r req) resp0) = []
        /\ diag.HasError (Diagnostics (resp (run (Update r req) resp0)))
           = true).
Proof.
  intros Hname. split; [|split].
  - simpl in Hname.
    repeat (destruct Hname as [<-|Hname];
            [eexists; split; [reflexivity | split; reflexivity]|]).
    destruct Hname.
  - intros plan state Hdiff. simpl in Hname.
    repeat (destruct Hname as [<-|Hname];
            [eapply RequiresReplace_In; [reflexivity|];
             unfold AttributeModifyPlan; simpl in Hdiff |- *;
             first [rewrite String_changed by exact Hdiff
                   |rewrite Int64_changed by exact Hdiff];
             reflexivity|]).
    destruct Hname.
  - intros rt r req resp0. rewrite Update_run. simpl.
    auto with diags.
Qed.

Lemma Schema_immutable_attributes_witness :
  In "source_url" (RequiresReplace Schema example.from_url example.recorded).
Proof.
  assert (Hname :
    In "source_url"
      ["name"; "project_id"; "description"; "os"; "version"; "block_size";
       "source_snapshot_id"; "source_url"])
    by (simpl; do 7 right; left; reflexivity).
  apply (proj1 (proj2 (@Schema_immutable_attributes "source_url" Hname))
           example.from_url example.recorded).
  simpl. discriminate.
Defined.

(** ** Runs on the example configurations *)

(** A configuration with a URL source and a block size passes the
    validators, and so does one with only a snapshot source. *)
Example ValidateConfig_from_url_run :
  ValidateConfig example.rt Schema example.from_url = []
  /\ ValidateConfig example.rt Schema example.from_snapshot = [].
Proof. split; reflexivity. Qed.

(** Without a source, [ExactlyOneOf] reports that none is specified. *)
Example ValidateConfig_no_source_run :
  map diag.Detail (ValidateConfig example.rt Schema example.no_source)
  = ["No attribute specified when one (and only one) of [source_url,source_snapshot_id] is required"].
Proof. reflexivity. Qed.

(** A snapshot source together with a block size is a conflict. *)
Example ValidateConfig_snapshot_with_block_size_run :
  map diag.Detail
    (ValidateConfig example.rt Schema
       (example.with_source (types.Known "c0ffee11") types.Null
          (types.Known 512)))
  = ["Attribute " ++ fmt_q "block_size" ++ " cannot be specified when "
       ++ fmt_q "source_snapshot_id" ++ " is specified"].
Proof. reflexivity. Qed.

(** A source that is still unknown delays [ExactlyOneOf]. *)
Example ValidateConfig_unknown_source_run :
  ValidateConfig example.rt Schema
    (example.with_source (types.Known "c0ffee11") types.Unknown types.Unknown)
  = [].
Proof. reflexivity. Qed.

(** A create timeout that is not a duration is reported by the validator
    of the timeouts attribute, at the nested attribute. *)
Example ValidateConfig_bad_timeout_run :
  map (fun d => (diag.Path d, diag.Summary d))
    (ValidateConfig example.rt Schema example.from_url_bad_timeout)
  = [(Some "timeouts.create", "Invalid Attribute Value Time Duration")].
Proof. reflexivity. Qed.

(** Validation, then Create: a configuration without source never reaches
    the remote API, one with a URL source and a block size makes the
    create call. *)
Example ValidatedCreate_run :
  remote (run (ValidatedCreate example.working example.no_source
                 {| CreateRequest_Plan := example.no_source |})
            example.fresh) = []
  /\ length
       (remote (run (ValidatedCreate example.working example.from_url
                       {| CreateRequest_Plan := example.from_url |})
                  example.fresh)) = 1%nat.
Proof. split; reflexivity. Qed.

(** Create from a URL on a working remote API: one call, carrying the
    block size of the plan, and the state is stored. *)
Example Create_from_url_run :
  remote (run (Create example.working
                 {| CreateRequest_Plan := example.from_url |}) example.fresh)
  = [CallImageCreate
       {| oxide.Project := "9d2c6f1b";
          oxide.Body :=
            {| oxide.ImageCreate_Description := "an alpine image";
               oxide.ImageCreate_Name := "alpine";
               oxide.ImageCreate_Os := "alpine";
               oxide.ImageCreate_Version := "3.15";
               oxide.ImageCreate_Source :=
                 {| oxide.ImageSource_Id := "http://images.example/alpine.raw";
                    oxide.ImageSource_Type := oxide.ImageSourceTypeUrl;
                    oxide.ImageSource_BlockSize := 512 |} |} |}]
  /\ option_map ID
       (State (resp (run (Create example.working
                            {| CreateRequest_Plan := example.from_url |})
                       example.fresh)))
     = Some (types.Known "4f7a1c2e").
Proof. split; reflexivity. Qed.

(** A create timeout that does not parse stops Create before the call. *)
Example Create_bad_timeout_run :
  let plan :=
    {| BlockSize := types.Known 512;
       Description := types.Known "an alpine image";
       Digest := types.Unknown;
       ID := types.Unknown;
       Name := types.Known "alpine";
       OS := types.Known "alpine";
       ProjectID := types.Known "9d2c6f1b";
       Size := types.Unknown;
       SourceSnapshotID := types.Null;
       SourceURL := types.Known "http://images.example/alpine.raw";
       TimeCreated := types.Unknown;
       TimeModified := types.Unknown;
       Version := types.Known "3.15";
       Timeouts := types.Known [("create", types.Known "soon")] |} in
  remote (run (Create example.working {| CreateRequest_Plan := plan |})
            example.fresh) = []
  /\ map diag.Summary
       (Diagnostics
          (resp (run (Create example.working {| CreateRequest_Plan := plan |})
                   example.fresh)))
     = ["Timeout Cannot Be Parsed"].
Proof. split; reflexivity. Qed.

(** Read of an image that is gone removes it from the state and reports
    nothing. *)
Example Read_absent_run :
  run (Read example.absent {| ReadRequest_State := example.recorded |})
    example.prior
  = {| resp := {| State := None; Diagnostics := [] |};
       remote := [CallImageView {| oxide.ImageViewParams_Image := "4f7a1c2e" |}]
    |}.
Proof. reflexivity. Qed.

(** * Further properties of the handlers *)

(** ** The ways a run of Create or Read can end *)

Lemma Create_cases (rt : Runtime) (r : imageResource rt) (req : CreateRequest)
    (resp0 : Response) :
  (diag.HasError (Diagnostics resp0) = true
   /\ run (Create r req) resp0 = {| resp := resp0; remote := [] |})
  \/ (diag.HasError (Diagnostics resp0) = false
      /\ diag.HasError
           (snd (timeouts.Create rt (Timeouts (CreateRequest_Plan req))
                   (defaultTimeout rt))) = true
      /\ run (Create r req) resp0
         = {| resp :=
                {| State := State resp0;
                   Diagnostics :=
                     diag.Append (Diagnostics resp0)
                       (snd (timeouts.Create rt
                               (Timeouts (CreateRequest_Plan req))
                               (defaultTimeout rt))) |};
              remote := [] |})
  \/ (diag.HasError (Diagnostics resp0) = false
      /\ types.IsNull (SourceSnapshotID (CreateRequest_Plan req)) = true
      /\ types.IsNull (SourceURL (CreateRequest_Plan req)) = true
      /\ run (Create r req) resp0
         = {| resp :=
                {| State := State resp0;
                   Diagnostics :=
                     diag.AddError (Diagnostics resp0) "Error creating image"
                       "One of `source_url` or `source_snapshot_id` must be set"
                |};
              remote := [] |})
  \/ (diag.HasError (Diagnostics resp0) = false
      /\ exists is_,
           run (Create r req) resp0 = Create_outcome r req resp0 is_
           /\ (is_ = Create_source_snapshot (CreateRequest_Plan req)
               \/ is_ = Create_source_url (CreateRequest_Plan req))).
Proof.
  destruct (diag.HasError (Diagnostics resp0)) eqn:E.
  { left. split; [reflexivity|]. now apply Create_has_error. }
  right.
  destruct (getTimeout_diags rt (Timeouts (CreateRequest_Plan req))
              timeouts.attributeNameCreate (defaultTimeout rt)) as [T|T].
  2:{ left. split; [reflexivity|]. split; [exact T|].
      now apply Create_bad_timeout. }
  right.
  destruct (types.IsNull (SourceSnapshotID (CreateRequest_Plan req))) eqn:Es.
  - destruct (types.IsNull (SourceURL (CreateRequest_Plan req))) eqn:Eu.
    + left. repeat split. now apply Create_no_source.
    + right. split; [reflexivity|].
      exists (Create_source_url (CreateRequest_Plan req)).
      split; [now apply Create_from_url | now right].
  - right. split; [reflexivity|].
    exists (Create_source_snapshot (CreateRequest_Plan req)).
    split; [now apply Create_from_snapshot | now left].
Qed.

Lemma Read_cases (rt : Runtime) (r : imageResource rt) (req : ReadRequest)
    (resp0 : Response) :
  (diag.HasError (Diagnostics resp0) = true
   /\ run (Read r req) resp0 = {| resp := resp0; remote := [] |})
  \/ (diag.HasError (Diagnostics resp0) = false
      /\ diag.HasError
           (snd (timeouts.Read rt (Timeouts (ReadRequest_State req))
                   (defaultTimeout rt))) = true
      /\ run (Read r req) resp0
         = {| resp :=
                {| State := State resp0;
                   Diagnostics :=
                     diag.Append (Diagnostics resp0)
                       (snd (timeouts.Read rt
                               (Timeouts (ReadRequest_State req))
                               (defaultTimeout rt))) |};
              remote := [] |})
  \/ (diag.HasError (Diagnostics resp0) = false
      /\ run (Read r req) resp0 = Read_outcome r req resp0).
Proof.
  destruct (diag.HasError (Diagnostics resp0)) eqn:E.
  { left. split; [reflexivity|]. now apply Read_has_error. }
  right.
  destruct (getTimeout_diags rt (Timeouts (ReadRequest_State req))
              timeouts.attributeNameRead (defaultTimeout rt)) as [T|T].
  - right. split; [reflexivity|]. now apply Read_reaches_remote.
  - left. split; [reflexivity|]. split; [exact T|].
    now apply Read_bad_timeout.
Qed.

(** ** What the handlers never do *)

(** X1. A handler that ends with an error among the diagnostics has left
    the state of the response as the host passed it in: Create, Read,
    Update and Delete store or remove a state only on a run without
    error. *)
Theorem handlers_error_keeps_state (rt : Runtime) (r : imageResource rt)
    (resp0 : Response) :
  (forall req,
     diag.HasError (Diagnostics (resp (run (Create r req) resp0))) = true ->
     State (resp (run (Create r req) resp0)) = State resp0)
  /\ (forall req,
        diag.HasError (Diagnostics (resp (run (Read r req) resp0))) = true ->
        State (resp (run (Read r req) resp0)) = State resp0)
  /\ (forall req, State (resp (run (Update r req) resp0)) = State resp0)
  /\ (forall req, State (resp (run (Delete r req) resp0)) = State resp0).
Proof.
  repeat split.
  - intros req.
    destruct (Create_cases r req resp0)
      as [[E ->]|[[E [T ->]]|[[E [_ [_ ->]]]|[E [is_ [-> _]]]]]];
      try reflexivity.
    unfold Create_outcome. simpl.
    destruct (oxide.Client_ImageCreate (client r) _); simpl;
      [congruence | reflexivity].
  - intros req.
    destruct (Read_cases r req resp0) as [[E ->]|[[E [T ->]]|[E ->]]];
      try reflexivity.
    unfold Read_outcome. simpl.
    destruct (oxide.Client_ImageView (client r) _) as [image|err]; simpl;
      [congruence|].
    destruct (is404 rt err); simpl; [congruence | reflexivity].
Qed.

Lemma handlers_error_keeps_state_witness :
  State (resp (run (Create example.failing
                      {| CreateRequest_Plan := example.from_url |})
                 example.prior)) = Some example.recorded
  /\ State (resp (run (Read example.failing
                         {| ReadRequest_State := example.recorded |})
                    example.prior)) = Some example.recorded.
Proof.
  destruct (@handlers_error_keeps_state example.rt example.failing
              example.prior) as [Hc [Hr _]].
  split; [apply Hc | apply Hr]; reflexivity.
Defined.

(** X2. No handler drops a diagnostic: whatever the response held when
    the handler was entered is still among the diagnostics when it
    returns. *)
Theorem handlers_keep_diagnostics (rt : Runtime) (r : imageResource rt)
    (resp0 : Response) (d : diag.Diagnostic) :
  In d (Diagnostics resp0) ->
  (forall req, In d (Diagnostics (resp (run (Create r req) resp0))))
  /\ (forall req, In d (Diagnostics (resp (run (Read r req) resp0))))
  /\ (forall req, In d (Diagnostics (resp (run (Update r req) resp0))))
  /\ (forall req, In d (Diagnostics (resp (run (Delete r req) resp0))))
  /\ (forall req, In d (Diagnostics (resp (run (ImportState r req) resp0)))).
Proof.
  intros Hd.
  assert (A : forall s t, In d (diag.AddError (Diagnostics resp0) s t))
    by (intros; apply In_Append; now left).
  repeat split; intros req.
  - destruct (Create_cases r req resp0)
      as [[E ->]|[[E [T ->]]|[[E [_ [_ ->]]]|[E [is_ [-> _]]]]]];
      simpl; auto.
    + apply In_Append. now left.
    + destruct (oxide.Client_ImageCreate (client r) _); simpl; auto.
  - destruct (Read_cases r req resp0) as [[E ->]|[[E [T ->]]|[E ->]]];
      simpl; auto.
    + apply In_Append. now left.
    + destruct (oxide.Client_ImageView (client r) _) as [image|err];
        simpl; auto.
      destruct (is404 rt err); simpl; auto.
  - rewrite Update_run. simpl. auto.
  - rewrite Delete_run. simpl. auto.
  - exact Hd.
Qed.

Lemma handlers_keep_diagnostics_witness :
  In (diag.NewErrorDiagnostic "Earlier" "an earlier error")
     (Diagnostics
        (resp (run (Delete example.working
                      {| DeleteRequest_State := example.recorded |})
                 {| State := Some example.recorded;
                    Diagnostics :=
                      [diag.NewErrorDiagnostic "Earlier" "an earlier error"]
                 |}))).
Proof.
  apply (@handlers_keep_diagnostics example.rt example.working
           {| State := Some example.recorded;
              Diagnostics :=
                [diag.NewErrorDiagnostic "Earlier" "an earlier error"] |}).
  simpl. left. reflexivity.
Defined.

(** X3. Create talks to the remote API through the create call only and
    at most once, and Read through the view of the recorded identifier
    only and at most once (the empty identifier when the recorded [id] is
    null or unknown). *)
Theorem handlers_call_discipline (rt : Runtime) (r : imageResource rt)
    (resp0 : Response) (c : RemoteCall) :
  (forall req,
     In c (remote (run (Create r req) resp0)) ->
     remote (run (Create r req) resp0) = [c]
     /\ exists params, c = CallImageCreate params)
  /\ (forall req,
        In c (remote (run (Read r req) resp0)) ->
        remote (run (Read r req) resp0) = [c]
        /\ c = CallImageView
                 {| oxide.ImageViewParams_Image :=
                      types.ValueString (ID (ReadRequest_State req)) |}).
Proof.
  split; intros req Hin.
  - apply Create_remote_inv in Hin as [_ [is_ [-> [-> _]]]].
    split; [reflexivity | eauto].
  - apply Read_remote_inv in Hin as [_ [-> ->]]. now split.
Qed.

Lemma handlers_call_discipline_witness :
  remote (run (Read example.working
                 {| ReadRequest_State := nullModel |}) example.fresh)
  = [CallImageView {| oxide.ImageViewParams_Image := EmptyString |}].
Proof.
  apply (proj2 (@handlers_call_discipline example.rt example.working
                  example.fresh
                  (CallImageView
                     {| oxide.ImageViewParams_Image := EmptyString |}))
           {| ReadRequest_State := nullModel |}).
  simpl. left. reflexivity.
Defined.

(** ** The create request *)

(** X4. [source_snapshot_id] takes precedence: whenever it is populated,
    the create request has the snapshot source with the snapshot's
    identifier and block size 0, whatever [source_url] and [block_size]
    hold. *)
Theorem Create_snapshot_precedence (rt : Runtime) (r : imageResource rt)
    (req : CreateRequest) (resp0 : Response)
    (params : oxide.ImageCreateParams) :
  In (CallImageCreate params) (remote (run (Create r req) resp0)) ->
  types.IsNull (SourceSnapshotID (CreateRequest_Plan req)) = false ->
  oxide.ImageCreate_Source (oxide.Body params)
  = {| oxide.ImageSource_Id :=
         types.ValueString (SourceSnapshotID (CreateRequest_Plan req));
       oxide.ImageSource_Type := oxide.ImageSourceTypeSnapshot;
       oxide.ImageSource_BlockSize := 0 |}.
Proof.
  intros Hin Es.
  apply Create_remote_inv in Hin as [_ [is_ [_ [Hp Hsrc]]]].
  injection Hp as ->.
  destruct Hsrc as [[_ ->]|[Es' _]]; [reflexivity | congruence].
Qed.

Lemma Create_snapshot_precedence_witness :
  oxide.ImageCreate_Source
    (oxide.Body
       (set_Body_Source
          (Create_source_snapshot
             (example.with_source (types.Known "c0ffee11")
                (types.Known "http://images.example/alpine.raw")
                (types.Known 512)))
          (Create_params
             (example.with_source (types.Known "c0ffee11")
                (types.Known "http://images.example/alpine.raw")
                (types.Known 512)))))
  = {| oxide.ImageSource_Id := "c0ffee11";
       oxide.ImageSource_Type := oxide.ImageSourceTypeSnapshot;
       oxide.ImageSource_BlockSize := 0 |}.
Proof.
  apply (@Create_snapshot_precedence example.rt example.working
           {| CreateRequest_Plan :=
                example.with_source (types.Known "c0ffee11")
                  (types.Known "http://images.example/alpine.raw")
                  (types.Known 512) |}
           example.fresh).
  - simpl. left. reflexivity.
  - reflexivity.
Defined.

(** X5. Every create request carries the project, name, description, os
    and version of the plan, a null or unknown value being sent as the
    empty string; with the URL source it carries the URL as identifier
    and the plan's block size, 0 when that is null or unknown. *)
Theorem Create_request_from_plan (rt : Runtime) (r : imageResource rt)
    (req : CreateRequest) (resp0 : Response)
    (params : oxide.ImageCreateParams) :
  In (CallImageCreate params) (remote (run (Create r req) resp0)) ->
  oxide.Project params = types.ValueString (ProjectID (CreateRequest_Plan req))
  /\ oxide.ImageCreate_Name (oxide.Body params)
     = types.ValueString (Name (CreateRequest_Plan req))
  /\ oxide.ImageCreate_Description (oxide.Body params)
     = types.ValueString (Description (CreateRequest_Plan req))
  /\ oxide.ImageCreate_Os (oxide.Body params)
     = types.ValueString (OS (CreateRequest_Plan req))
  /\ oxide.ImageCreate_Version (oxide.Body params)
     = types.ValueString (Version (CreateRequest_Plan req))
  /\ (types.IsNull (SourceSnapshotID (CreateRequest_Plan req)) = true ->
      oxide.ImageSource_Id (oxide.ImageCreate_Source (oxide.Body params))
      = types.ValueString (SourceURL (CreateRequest_Plan req))
      /\ oxide.ImageSource_BlockSize
           (oxide.ImageCreate_Source (oxide.Body params))
         = types.ValueInt64 (BlockSize (CreateRequest_Plan req))).
Proof.
  intros Hin.
  apply Create_remote_inv in Hin as [_ [is_ [_ [Hp Hsrc]]]].
  injection Hp as ->. simpl. repeat split.
  - destruct Hsrc as [[Es _]|[_ [_ ->]]]; [congruence | reflexivity].
  - destruct Hsrc as [[Es _]|[_ [_ ->]]]; [congruence | reflexivity].
Qed.

Lemma Create_request_from_plan_witness :
  oxide.Project
    (set_Body_Source (Create_source_url example.from_url_no_block_size)
       (Create_params example.from_url_no_block_size)) = "9d2c6f1b"
  /\ oxide.ImageSource_BlockSize
       (oxide.ImageCreate_Source
          (oxide.Body
             (set_Body_Source
                (Create_source_url example.from_url_no_block_size)
                (Create_params example.from_url_no_block_size)))) = 0.
Proof.
  destruct (@Create_request_from_plan example.rt example.working
              {| CreateRequest_Plan := example.from_url_no_block_size |}
              example.fresh
              (set_Body_Source
                 (Create_source_url example.from_url_no_block_size)
                 (Create_params example.from_url_no_block_size)))
    as (Hp & _ & _ & _ & _ & Hs).
  - simpl. left. reflexivity.
  - split; [exact Hp|]. apply Hs. reflexivity.
Defined.

(** ** The state Create records *)

(** X6. On a successful create the recorded state keeps the plan's
    [name], [description], [os], [project_id], [block_size],
    [source_snapshot_id], [source_url] and [timeouts], but not its
    [version]: that is replaced by the version of the image the remote
    API returned. *)
Theorem Create_success_frame (rt : Runtime) (r : imageResource rt)
    (req : CreateRequest) (resp0 : Response)
    (params : oxide.ImageCreateParams) (image : oxide.Image (Time rt)) :
  In (CallImageCreate params) (remote (run (Create r req) resp0)) ->
  oxide.Client_ImageCreate (client r) params = inl image ->
  exists st,
    State (resp (run (Create r req) resp0)) = Some st
    /\ Version st = types.Known (oxide.Image_Version image)
    /\ Name st = Name (CreateRequest_Plan req)
    /\ Description st = Description (CreateRequest_Plan req)
    /\ OS st = OS (CreateRequest_Plan req)
    /\ ProjectID st = ProjectID (CreateRequest_Plan req)
    /\ BlockSize st = BlockSize (CreateRequest_Plan req)
    /\ SourceSnapshotID st = SourceSnapshotID (CreateRequest_Plan req)
    /\ SourceURL st = SourceURL (CreateRequest_Plan req)
    /\ Timeouts st = Timeouts (CreateRequest_Plan req).
Proof.
  intros Hin Hok.
  apply Create_remote_inv in Hin as [_ [is_ [-> [Hp _]]]].
  injection Hp as ->. unfold Create_outcome. simpl. rewrite Hok.
  eexists. split; [reflexivity|]. repeat split.
Qed.

Lemma Create_success_frame_witness :
  exists st,
    State (resp (run (Create example.working
                        {| CreateRequest_Plan := example.from_url |})
                   example.fresh)) = Some st
    /\ Version example.from_url = types.Known "3.15"
    /\ Version st = types.Known "3.16"
    /\ Name st = types.Known "alpine".
Proof.
  destruct (@Create_success_frame example.rt example.working
              {| CreateRequest_Plan := example.from_url |} example.fresh
              (set_Body_Source (Create_source_url example.from_url)
                 (Create_params example.from_url))
              example.image)
    as (st & Hst & Hv & Hn & _).
  - simpl. left. reflexivity.
  - reflexivity.
  - exists st. repeat split; assumption.
Defined.

(** X7. A Create that returns without an error among the diagnostics has
    made the create call, got an image back and recorded a state: there
    is no run of Create that silently does nothing. *)
Theorem Create_no_error_recorded (rt : Runtime) (r : imageResource rt)
    (req : CreateRequest) (resp0 : Response) :
  diag.HasError (Diagnostics (resp (run (Create r req) resp0))) = false ->
  exists params image st,
    remote (run (Create r req) resp0) = [CallImageCreate params]
    /\ oxide.Client_ImageCreate (client r) params = inl image
    /\ State (resp (run (Create r req) resp0)) = Some st
    /\ ID st = types.Known (oxide.Image_Id image)
    /\ Diagnostics (resp (run (Create r req) resp0)) = Diagnostics resp0.
Proof.
  destruct (Create_cases r req resp0)
    as [[E ->]|[[E [T ->]]|[[E [_ [_ ->]]]|[E [is_ [-> _]]]]]]; simpl.
  - congruence.
  - rewrite HasError_Append, T, orb_true_r. discriminate.
  - rewrite HasError_AddError. discriminate.
  - destruct (oxide.Client_ImageCreate (client r) _) as [image|err] eqn:C;
      simpl.
    + intros _. do 3 eexists. split; [reflexivity|].
      split; [exact C|]. repeat split.
    + rewrite HasError_AddError. discriminate.
Qed.

Lemma Create_no_error_recorded_witness :
  exists params image st,
    remote (run (Create example.working
                   {| CreateRequest_Plan := example.from_snapshot |})
              example.fresh) = [CallImageCreate params]
    /\ oxide.Client_ImageCreate (client example.working) params = inl image
    /\ State (resp (run (Create example.working
                           {| CreateRequest_Plan := example.from_snapshot |})
                      example.fresh)) = Some st.
Proof.
  destruct (@Create_no_error_recorded example.rt example.working
              {| CreateRequest_Plan := example.from_snapshot |} example.fresh)
    as (params & image & st & Hr & Hc & Hs & _).
  - reflexivity.
  - exists params, image, st. auto.
Defined.

(** ** Timeouts *)

Lemma getTimeout_malformed (rt : Runtime) (t : timeouts.Value)
    (name value message : string) (default : Z) :
  timeouts.lookup name (timeouts.Attributes t) = Some (types.Known value) ->
  ParseDuration rt value = inr message ->
  snd (timeouts.getTimeout rt t name default)
  = [diag.NewErrorDiagnostic "Timeout Cannot Be Parsed"
       ("timeout for " ++ fmt_q name ++ " cannot be parsed, " ++ message)].
Proof.
  intros L P. unfold timeouts.getTimeout. rewrite L. simpl. now rewrite P.
Qed.

(** X8. A configured timeout that does not parse as a duration stops the
    handler it belongs to before the remote call: Create with a
    malformed [create] timeout, and Read with a malformed [read]
    timeout, report "Timeout Cannot Be Parsed", call nothing and leave
    the state as it was. *)
Theorem malformed_timeout_stops (rt : Runtime) (r : imageResource rt)
    (resp0 : Response) (value message : string) :
  diag.HasError (Diagnostics resp0) = false ->
  ParseDuration rt value = inr message ->
  (forall req,
     timeouts.lookup "create"
       (timeouts.Attributes (Timeouts (CreateRequest_Plan req)))
     = Some (types.Known value) ->
     remote (run (Create r req) resp0) = []
     /\ State (resp (run (Create r req) resp0)) = State resp0
     /\ In (diag.NewErrorDiagnostic "Timeout Cannot Be Parsed"
              ("timeout for " ++ fmt_q "create" ++ " cannot be parsed, "
                 ++ message))
           (Diagnostics (resp (run (Create r req) resp0))))
  /\ (forall req,
        timeouts.lookup "read"
          (timeouts.Attributes (Timeouts (ReadRequest_State req)))
        = Some (types.Known value) ->
        remote (run (Read r req) resp0) = []
        /\ State (resp (run (Read r req) resp0)) = State resp0
        /\ In (diag.NewErrorDiagnostic "Timeout Cannot Be Parsed"
                 ("timeout for " ++ fmt_q "read" ++ " cannot be parsed, "
                    ++ message))
              (Diagnostics (resp (run (Read r req) resp0)))).
Proof.
  intros E P. split; intros req L.
  - pose proof (getTimeout_malformed rt _ _ (defaultTimeout rt) L P) as T.
    change (timeouts.getTimeout rt (Timeouts (CreateRequest_Plan req))
              "create" (defaultTimeout rt))
      with (timeouts.Create rt (Timeouts (CreateRequest_Plan req))
              (defaultTimeout rt)) in T.
    rewrite Create_bad_timeout; [| exact E | now rewrite T].
    simpl. repeat split. apply In_Append. right. rewrite T. now left.
  - pose proof (getTimeout_malformed rt _ _ (defaultTimeout rt) L P) as T.
    change (timeouts.getTimeout rt (Timeouts (ReadRequest_State req))
              "read" (defaultTimeout rt))
      with (timeouts.Read rt (Timeouts (ReadRequest_State req))
              (defaultTimeout rt)) in T.
    rewrite Read_bad_timeout; [| exact E | now rewrite T].
    simpl. repeat split. apply In_Append. right. rewrite T. now left.
Qed.

Lemma malformed_timeout_stops_witness :
  remote (run (Read example.working
                 {| ReadRequest_State :=
                      set_ID (types.Known "4f7a1c2e")
                        {| BlockSize := types.Null;
                           Description := types.Null;
                           Digest := types.Null;
                           ID := types.Null;
                           Name := types.Null;
                           OS := types.Null;
                           ProjectID := types.Null;
                           Size := types.Null;
                           SourceSnapshotID := types.Null;
                           SourceURL := types.Null;
                           TimeCreated := types.Null;
                           TimeModified := types.Null;
                           Version := types.Null;
                           Timeouts :=
                             types.Known [("read", types.Known "soon")] |}
                 |})
            example.fresh) = [].
Proof.
  apply (proj2 (@malformed_timeout_stops example.rt example.working
                  example.fresh "soon"
                  ("time: invalid duration " ++ fmt_q "soon")
                  eq_refl eq_refl)).
  reflexivity.
Defined.

(** ** Read after Create, and Read after Read *)

(** X9. Create followed by Read: when the view of the new identifier
    returns the image the create call returned, Read leaves the computed
    attributes, the version, [source_snapshot_id] and [timeouts] of the
    state Create recorded as they are; and when, in addition, the image
    echoes the plan ([description], [name], [os] and [block_size] as
    planned, [project_id] and [source_url] as planned or empty), the
    state after Read is the state Create recorded. *)
Theorem Read_after_Create (rt : Runtime) (r : imageResource rt)
    (req : CreateRequest) (resp0 : Response)
    (params : oxide.ImageCreateParams) (image : oxide.Image (Time rt))
    (st : imageResourceModel) :
  In (CallImageCreate params) (remote (run (Create r req) resp0)) ->
  oxide.Client_ImageCreate (client r) params = inl image ->
  State (resp (run (Create r req) resp0)) = Some st ->
  oxide.Client_ImageView (client r)
    {| oxide.ImageViewParams_Image := oxide.Image_Id image |} = inl image ->
  snd (timeouts.Read rt (Timeouts (CreateRequest_Plan req))
         (defaultTimeout rt)) = [] ->
  exists st',
    State (resp (run (Read r {| ReadRequest_State := st |})
                   (resp (run (Create r req) resp0)))) = Some st'
    /\ ID st' = ID st /\ Size st' = Size st
    /\ TimeCreated st' = TimeCreated st /\ TimeModified st' = TimeModified st
    /\ Digest st' = Digest st /\ Version st' = Version st
    /\ SourceSnapshotID st' = SourceSnapshotID st
    /\ Timeouts st' = Timeouts st
    /\ (Description (CreateRequest_Plan req)
        = types.Known (oxide.Image_Description image) ->
        Name (CreateRequest_Plan req)
        = types.Known (oxide.Image_Name image) ->
        OS (CreateRequest_Plan req) = types.Known (oxide.Image_Os image) ->
        BlockSize (CreateRequest_Plan req)
        = types.Known (int64 (oxide.Image_BlockSize image)) ->
        (oxide.Image_ProjectId image = EmptyString
         \/ ProjectID (CreateRequest_Plan req)
            = types.Known (oxide.Image_ProjectId image)) ->
        (oxide.Image_Url image = EmptyString
         \/ SourceURL (CreateRequest_Plan req)
            = types.Known (oxide.Image_Url image)) ->
        st' = st).
Proof.
  intros Hin Hok Hst Hview T.
  apply Create_remote_inv in Hin as [E [is_ [Hrun [Hp _]]]].
  injection Hp as ->. rewrite Hrun in Hst |- *.
  unfold Create_outcome in Hst |- *. simpl in Hst |- *.
  rewrite Hok in Hst |- *. injection Hst as <-.
  rewrite Read_reaches_remote; [| exact E | exact T].
  unfold Read_outcome. simpl. rewrite Hview.
  eexists. split; [reflexivity|].
  unfold Read_refresh.
  destruct (String.eqb_spec (oxide.Image_ProjectId image) EmptyString)
    as [Pe|Pn];
    destruct (String.eqb_spec (oxide.Image_Url image) EmptyString)
      as [Ue|Un];
    simpl; repeat split;
    destruct (CreateRequest_Plan req); simpl;
    intros -> -> -> -> [P|P] [U|U]; try congruence;
    try rewrite P; try rewrite U; reflexivity.
Qed.

Lemma Read_after_Create_witness :
  exists st',
    State (resp (run (Read example.working
                        {| ReadRequest_State :=
                             set_Digest
                               (types.Known (digestModel example.image))
                               (Create_populate example.rt example.image
                                  example.from_url) |})
                   (resp (run (Create example.working
                                 {| CreateRequest_Plan := example.from_url |})
                            example.fresh)))) = Some st'
    /\ st' = set_Digest (types.Known (digestModel example.image))
               (Create_populate example.rt example.image example.from_url).
Proof.
  destruct (@Read_after_Create example.rt example.working
              {| CreateRequest_Plan := example.from_url |} example.fresh
              (set_Body_Source (Create_source_url example.from_url)
                 (Create_params example.from_url))
              example.image
              (set_Digest (types.Known (digestModel example.image))
                 (Create_populate example.rt example.image example.from_url)))
    as (st' & Hst & _ & _ & _ & _ & _ & _ & _ & _ & Hecho);
    [simpl; left; reflexivity | reflexivity | reflexivity | reflexivity
    | reflexivity |].
  exists st'. split; [exact Hst|].
  apply Hecho; try reflexivity; now left.
Defined.

(** The refreshed state, attribute by attribute. *)
Lemma Read_refresh_eq (rt : Runtime) (image : oxide.Image (Time rt))
    (st : imageResourceModel) :
  Read_refresh rt image st
  = {| BlockSize := types.Known (int64 (oxide.Image_BlockSize image));
       Description := types.Known (oxide.Image_Description image);
       Digest := Digest st;
       ID := types.Known (oxide.Image_Id image);
       Name := types.Known (oxide.Image_Name image);
       OS := types.Known (oxide.Image_Os image);
       ProjectID :=
         if negb (oxide.Image_ProjectId image =? EmptyString)%string
         then types.Known (oxide.Image_ProjectId image)
         else ProjectID st;
       Size := types.Known (int64 (oxide.Image_Size image));
       SourceSnapshotID := SourceSnapshotID st;
       SourceURL :=
         if negb (oxide.Image_Url image =? EmptyString)%string
         then types.Known (oxide.Image_Url image)
         else SourceURL st;
       TimeCreated :=
         types.Known (Time_String rt (oxide.Image_TimeCreated image));
       TimeModified :=
         types.Known (Time_String rt (oxide.Image_TimeModified image));
       Version := types.Known (oxide.Image_Version image);
       Timeouts := Timeouts st |}.
Proof.
  unfold Read_refresh.
  destruct (negb (oxide.Image_ProjectId image =? EmptyString)%string);
    destruct (negb (oxide.Image_Url image =? EmptyString)%string);
    reflexivity.
Qed.

(** What a refresh fixes whatever the image says about project and URL. *)
Lemma refreshed_fields (rt : Runtime) (image : oxide.Image (Time rt))
    (st : imageResourceModel) (d : types.Value imageResourceDigestModel) :
  ID (set_Digest d (Read_refresh rt image st))
  = types.Known (oxide.Image_Id image)
  /\ BlockSize (set_Digest d (Read_refresh rt image st))
     = types.Known (int64 (oxide.Image_BlockSize image))
  /\ Timeouts (set_Digest d (Read_refresh rt image st)) = Timeouts st.
Proof. rewrite Read_refresh_eq. repeat split. Qed.

Lemma refreshed_twice (rt : Runtime) (image : oxide.Image (Time rt))
    (st : imageResourceModel) (d : types.Value imageResourceDigestModel) :
  set_Digest d (Read_refresh rt image (set_Digest d (Read_refresh rt image st)))
  = set_Digest d (Read_refresh rt image st).
Proof.
  rewrite !Read_refresh_eq. unfold set_Digest. cbn.
  destruct (negb (oxide.Image_ProjectId image =? EmptyString)%string);
    destruct (negb (oxide.Image_Url image =? EmptyString)%string);
    reflexivity.
Qed.

(** X10. Read is idempotent on an unchanged remote object: when the view
    of the refreshed identifier returns the same image again, a second
    Read on the refreshed state stores that very state, adds no
    diagnostic and makes one more view call. *)
Theorem Read_idempotent (rt : Runtime) (r : imageResource rt)
    (req : ReadRequest) (resp0 : Response)
    (params : oxide.ImageViewParams) (image : oxide.Image (Time rt))
    (st : imageResourceModel) :
  In (CallImageView params) (remote (run (Read r req) resp0)) ->
  oxide.Client_ImageView (client r) params = inl image ->
  State (resp (run (Read r req) resp0)) = Some st ->
  oxide.Client_ImageView (client r)
    {| oxide.ImageViewParams_Image := oxide.Image_Id image |} = inl image ->
  run (Read r {| ReadRequest_State := st |}) (resp (run (Read r req) resp0))
  = {| resp := resp (run (Read r req) resp0);
       remote :=
         [CallImageView
            {| oxide.ImageViewParams_Image := oxide.Image_Id image |}] |}.
Proof.
  intros Hin Hok Hst Hview.
  pose proof (Read_remote_inv r req resp0 _ Hin) as [E [R Hp]].
  assert (T : snd (timeouts.Read rt (Timeouts (ReadRequest_State req))
                     (defaultTimeout rt)) = []).
  { destruct (getTimeout_diags rt (Timeouts (ReadRequest_State req))
                timeouts.attributeNameRead (defaultTimeout rt)) as [T|T];
      [exact T|].
    rewrite Read_bad_timeout in Hin by assumption. destruct Hin. }
  injection Hp as ->.
  rewrite R in Hst |- *. unfold Read_outcome in Hst |- *.
  cbv zeta in Hst |- *. rewrite Hok in Hst |- *.
  cbn [resp State] in Hst |- *. injection Hst as <-.
  destruct (refreshed_fields rt image (ReadRequest_State req)
              (types.Known (digestModel image))) as [Fid [_ Ft]].
  rewrite Read_reaches_remote;
    [| exact E | cbn [ReadRequest_State]; now rewrite Ft].
  unfold Read_outcome. cbv zeta. cbn [ReadRequest_State].
  rewrite Fid. cbn [types.ValueString]. rewrite Hview.
  rewrite refreshed_twice. reflexivity.
Qed.

Lemma Read_idempotent_witness :
  State (resp (run (Read example.working
                      {| ReadRequest_State :=
                           set_Digest (types.Known (digestModel example.image))
                             (Read_refresh example.rt example.image
                                example.recorded) |})
                 (resp (run (Read example.working
                               {| ReadRequest_State := example.recorded |})
                          example.prior))))
  = State (resp (run (Read example.working
                        {| ReadRequest_State := example.recorded |})
                   example.prior)).
Proof.
  rewrite (@Read_idempotent example.rt example.working
             {| ReadRequest_State := example.recorded |} example.prior
             {| oxide.ImageViewParams_Image := "4f7a1c2e" |} example.image
             (set_Digest (types.Known (digestModel example.image))
                (Read_refresh example.rt example.image example.recorded))).
  - reflexivity.
  - simpl. left. reflexivity.
  - reflexivity.
  - reflexivity.
  - reflexivity.
Defined.

(** X11. After a successful Read the recorded [block_size] is a known
    number, taken from the image.  A plan that leaves [block_size] null
    (as the validators demand of a configuration with a snapshot source)
    therefore differs from the refreshed state, and [block_size] is among
    the paths that require replacement. *)
Theorem Read_block_size_requires_replace (rt : Runtime) (r : imageResource rt)
    (req : ReadRequest) (resp0 : Response)
    (params : oxide.ImageViewParams) (image : oxide.Image (Time rt))
    (st plan : imageResourceModel) :
  In (CallImageView params) (remote (run (Read r req) resp0)) ->
  oxide.Client_ImageView (client r) params = inl image ->
  State (resp (run (Read r req) resp0)) = Some st ->
  BlockSize plan = types.Null ->
  BlockSize st = types.Known (int64 (oxide.Image_BlockSize image))
  /\ In "block_size" (RequiresReplace Schema plan st).
Proof.
  intros Hin Hok Hst Hplan.
  apply Read_remote_inv in Hin as [E [Hrun Hp]]. injection Hp as ->.
  rewrite Hrun in Hst. unfold Read_outcome in Hst. simpl in Hst.
  rewrite Hok in Hst. injection Hst as <-.
  destruct (refreshed_fields rt image (ReadRequest_State req)
              (types.Known (digestModel image))) as [_ [B _]].
  split; [exact B|].
  eapply RequiresReplace_In; [reflexivity|].
  unfold AttributeModifyPlan, GetAttribute. simpl String.eqb. cbv iota.
  rewrite B, Hplan. reflexivity.
Qed.

Lemma Read_block_size_requires_replace_witness :
  In "block_size"
    (RequiresReplace Schema example.from_snapshot
       (set_Digest (types.Known (digestModel example.image))
          (Read_refresh example.rt example.image example.recorded))).
Proof.
  apply (@Read_block_size_requires_replace example.rt example.working
           {| ReadRequest_State := example.recorded |} example.prior
           {| oxide.ImageViewParams_Image := "4f7a1c2e" |} example.image
           (set_Digest (types.Known (digestModel example.image))
              (Read_refresh example.rt example.image example.recorded))
           example.from_snapshot).
  - simpl. left. reflexivity.
  - reflexivity.
  - reflexivity.
  - reflexivity.
Defined.

(** ** Import *)

(** X12. Importing an identifier into an empty state records a state
    whose only value is that [id] and calls nothing; the Read that
    follows views that identifier.  When the image is found, the state
    takes everything the image carries, while [source_snapshot_id] and
    [timeouts] stay null, and [project_id] and [source_url] stay null
    when the image has none; when the image is not found, the state is
    removed again. *)
Theorem ImportState_then_Read (rt : Runtime) (r : imageResource rt)
    (req : ImportStateRequest) (resp0 : Response) :
  State resp0 = None ->
  diag.HasError (Diagnostics resp0) = false ->
  run (ImportState r req) resp0
  = {| resp :=
         {| State :=
              Some (set_ID (types.Known (ImportStateRequest_ID req))
                      nullModel);
            Diagnostics := Diagnostics resp0 |};
       remote := [] |}
  /\ remote
       (run (Read r {| ReadRequest_State :=
                         set_ID (types.Known (ImportStateRequest_ID req))
                           nullModel |})
          (resp (run (ImportState r req) resp0)))
     = [CallImageView
          {| oxide.ImageViewParams_Image := ImportStateRequest_ID req |}]
  /\ (forall image,
        oxide.Client_ImageView (client r)
          {| oxide.ImageViewParams_Image := ImportStateRequest_ID req |}
        = inl image ->
        exists st,
          State
            (resp
               (run (Read r {| ReadRequest_State :=
                                 set_ID
                                   (types.Known (ImportStateRequest_ID req))
                                   nullModel |})
                  (resp (run (ImportState r req) resp0)))) = Some st
          /\ ID st = types.Known (oxide.Image_Id image)
          /\ Name st = types.Known (oxide.Image_Name image)
          /\ Description st = types.Known (oxide.Image_Description image)
          /\ OS st = types.Known (oxide.Image_Os image)
          /\ Version st = types.Known (oxide.Image_Version image)
          /\ BlockSize st = types.Known (int64 (oxide.Image_BlockSize image))
          /\ SourceSnapshotID st = types.Null
          /\ Timeouts st = types.Null
          /\ (oxide.Image_ProjectId image = EmptyString ->
              ProjectID st = types.Null)
          /\ (oxide.Image_Url image = EmptyString ->
              SourceURL st = types.Null))
  /\ (forall err,
        oxide.Client_ImageView (client r)
          {| oxide.ImageViewParams_Image := ImportStateRequest_ID req |}
        = inr err ->
        is404 rt err = true ->
        State
          (resp
             (run (Read r {| ReadRequest_State :=
                               set_ID
                                 (types.Known (ImportStateRequest_ID req))
                                 nullModel |})
                (resp (run (ImportState r req) resp0)))) = None).
Proof.
  intros Hs E.
  assert (I : run (ImportState r req) resp0
              = {| resp :=
                     {| State :=
                          Some (set_ID
                                  (types.Known (ImportStateRequest_ID req))
                                  nullModel);
                        Diagnostics := Diagnostics resp0 |};
                   remote := [] |}).
  { unfold run, ImportState, ImportStatePassthroughID_id, bind,
      State_SetAttribute_id, Diagnostics_Append.
    simpl. now rewrite Hs. }
  rewrite I. split; [reflexivity|].
  rewrite Read_reaches_remote; [| exact E | reflexivity].
  unfold Read_outcome. simpl. split; [reflexivity|]. split.
  - intros image ->. eexists. split; [reflexivity|].
    unfold Read_refresh.
    destruct (String.eqb_spec (oxide.Image_ProjectId image) EmptyString)
      as [Pe|Pn];
      destruct (String.eqb_spec (oxide.Image_Url image) EmptyString)
        as [Ue|Un];
      simpl; repeat split; intros; congruence.
  - intros err -> ->. reflexivity.
Qed.

Lemma ImportState_then_Read_witness :
  exists st,
    State
      (resp
         (run (Read example.working
                 {| ReadRequest_State :=
                      set_ID (types.Known "4f7a1c2e") nullModel |})
            (resp (run (ImportState example.working
                          {| ImportStateRequest_ID := "4f7a1c2e" |})
                     example.fresh)))) = Some st
    /\ SourceSnapshotID st = types.Null
    /\ ProjectID st = types.Null.
Proof.
  destruct (@ImportState_then_Read example.rt example.working
              {| ImportStateRequest_ID := "4f7a1c2e" |} example.fresh
              eq_refl eq_refl)
    as (_ & _ & Hfound & _).
  destruct (Hfound example.image eq_refl)
    as (st & Hst & _ & _ & _ & _ & _ & _ & Hsnap & _ & Hproj & _).
  exists st. split; [exact Hst|]. split; [exact Hsnap|].
  apply Hproj. reflexivity.
Defined.

(** ** What the validation of the image schema consists of *)

Lemma ValidateConfig_In_inv (rt : Runtime) (s : schema.Schema)
    (config : imageResourceModel) (d : diag.Diagnostic) :
  In d (ValidateConfig rt s config) ->
  exists path a,
    In (path, a) s /\ In d (AttributeValidate rt config path a).
Proof.
  unfold ValidateConfig. intros H.
  apply (fold_Append_In_inv
           (fun entry => AttributeValidate rt config (fst entry) (snd entry)))
    in H as [[]|[[path a] [Hin Hd]]].
  now exists path, a.
Qed.

Lemma ValidateConfig_In_attribute (rt : Runtime) (s : schema.Schema)
    (config : imageResourceModel) (path : string) (a : schema.Attribute)
    (d : diag.Diagnostic) :
  In (path, a) s ->
  In d (AttributeValidate rt config path a) ->
  In d (ValidateConfig rt s config).
Proof.
  intros Hs Hd. unfold ValidateConfig.
  apply (fold_Append_In
           (fun entry => AttributeValidate rt config (fst entry) (snd entry))).
  right. now exists (path, a).
Qed.

Lemma HasError_exists (diags : diag.Diagnostics) :
  diag.HasError diags = true ->
  exists d, In d diags /\ diag.IsError d = true.
Proof. intros H. now apply existsb_exists in H. Qed.

(** Only [source_snapshot_id], [source_url] and [timeouts] have
    validators, their own or inside them. *)
Lemma Schema_quiet_attributes (rt : Runtime) (config : imageResourceModel)
    (path : string) (a : schema.Attribute) :
  In (path, a) Schema ->
  path <> "source_snapshot_id" -> path <> "source_url" ->
  path <> "timeouts" ->
  AttributeValidate rt config path a = [].
Proof.
  unfold Schema. simpl. intros Hin N1 N2 N3.
  repeat (destruct Hin as [Heq|Hin];
          [injection Heq as <- <-;
           first [ now elim N1 | now elim N2 | now elim N3
                 | unfold AttributeValidate; simpl;
                   try destruct (Digest config); reflexivity ]|]).
  destruct Hin.
Qed.

(** The validators of the two sources: what they report is an "Invalid
    Attribute Combination" error at their attribute; they report nothing
    on the two accepted shapes, and nothing while [block_size] and one
    of the sources are unknown. *)
Lemma Schema_source_attributes (rt : Runtime) (config : imageResourceModel)
    (path : string) (a : schema.Attribute) :
  In (path, a) Schema ->
  path = "source_snapshot_id" \/ path = "source_url" ->
  (forall d,
     In d (AttributeValidate rt config path a) ->
     diag.IsError d = true
     /\ diag.Summary d = "Invalid Attribute Combination"
     /\ diag.Path d = Some path)
  /\ (types.IsUnknown (SourceSnapshotID config) = false ->
      types.IsUnknown (SourceURL config) = false ->
      types.IsUnknown (BlockSize config) = false ->
      (types.IsNull (SourceSnapshotID config) = false
       /\ types.IsNull (SourceURL config) = true
       /\ types.IsNull (BlockSize config) = true)
      \/ (types.IsNull (SourceSnapshotID config) = true
          /\ types.IsNull (SourceURL config) = false
          /\ types.IsNull (BlockSize config) = false) ->
      AttributeValidate rt config path a = [])
  /\ (BlockSize config = types.Unknown ->
      SourceSnapshotID config = types.Unknown
      \/ SourceURL config = types.Unknown ->
      AttributeValidate rt config path a = []).
Proof.
  unfold Schema. simpl. intros Hin Hpath.
  destruct config as [bs de di id na os pr si sn su tc tm ve ti].
  destruct Hpath as [-> | ->];
    repeat (destruct Hin as [Heq|Hin];
            [first [ discriminate Heq
                   | injection Heq as <-;
                     unfold AttributeValidate; simpl;
                     destruct sn, su, bs; simpl;
                     (split; [intros d H;
                              repeat (destruct H as [<-|H]; [now auto|]);
                              destruct H|]);
                     (split; [intros U1 U2 U3 [[A [B C]]|[A [B C]]];
                              first [discriminate | reflexivity]
                             |intros B [S|S];
                              first [discriminate | reflexivity]]) ]|]);
    destruct Hin.
Qed.

(** The validators inside [timeouts]: one error for each of [create] and
    [read] that is set to a string [time.ParseDuration] rejects. *)
Lemma Schema_timeouts_attribute (rt : Runtime) (config : imageResourceModel)
    (d : diag.Diagnostic) :
  In d (AttributeValidate rt config "timeouts"
          (timeouts_Attributes true true false false))
  <-> exists name value message,
        (name = "create" \/ name = "read")
        /\ timeouts.lookup name (timeouts.Attributes (Timeouts config))
           = Some (types.Known value)
        /\ ParseDuration rt value = inr message
        /\ d = diag.NewAttributeErrorDiagnostic ("timeouts." ++ name)
                 "Invalid Attribute Value Time Duration"
                 (fmt_q value ++ " "
                    ++ schemavalidator.TimeDuration_Description).
Proof.
  unfold AttributeValidate.
  change (GetAttribute config "timeouts")
    with (Some (attr.Timeouts (Timeouts config))).
  destruct (Timeouts config) as [| |m]; simpl.
  - split; [intros [] | intros (n & v & msg & _ & L & _); discriminate L].
  - split; [intros [] | intros (n & v & msg & _ & L & _); discriminate L].
  - set (TD := fun name =>
                 match option_map attr.String (timeouts.lookup name m) with
                 | Some nestedValue =>
                     diag.Append []
                       (schemavalidator.TimeDuration rt ("timeouts." ++ name)
                          nestedValue)
                 | None => []
                 end).
    change (In d (diag.Append (diag.Append [] (TD "create")) (TD "read"))
            <-> exists name value message,
                  (name = "create" \/ name = "read")
                  /\ timeouts.lookup name m = Some (types.Known value)
                  /\ ParseDuration rt value = inr message
                  /\ d = diag.NewAttributeErrorDiagnostic
                           ("timeouts." ++ name)
                           "Invalid Attribute Value Time Duration"
                           (fmt_q value ++ " "
                              ++ schemavalidator.TimeDuration_Description)).
    assert (T : forall name,
              In d (TD name)
              <-> exists value message,
                    timeouts.lookup name m = Some (types.Known value)
                    /\ ParseDuration rt value = inr message
                    /\ d = diag.NewAttributeErrorDiagnostic
                             ("timeouts." ++ name)
                             "Invalid Attribute Value Time Duration"
                             (fmt_q value ++ " "
                                ++ schemavalidator.TimeDuration_Description)).
    { intros name. unfold TD.
      destruct (timeouts.lookup name m) as [[| |v]|]; simpl;
        try (split; [intros [] | intros (v' & msg & L & _); discriminate L]).
      destruct (ParseDuration rt v) as [dur|msg] eqn:P; simpl.
      - split; [intros []|].
        intros (v' & msg & L & P' & _). injection L as <-. congruence.
      - split.
        + intros [<-|[]]. now exists v, msg.
        + intros (v' & msg' & L & P' & ->). injection L as <-. now left. }
    split.
    + intros H. apply In_Append_inv in H as [H|H].
      * apply In_Append_inv in H as [[]|H].
        apply T in H as (v & msg & L & P & ->).
        exists "create", v, msg. auto.
      * apply T in H as (v & msg & L & P & ->).
        exists "read", v, msg. auto.
    + intros (name & v & msg & [-> | ->] & L & P & E).
      * apply In_Append. left. apply In_Append. right.
        apply T. now exists v, msg.
      * apply In_Append. right. apply T. now exists v, msg.
Qed.

Lemma Schema_timeouts_entry (a : schema.Attribute) :
  In ("timeouts", a) Schema -> a = timeouts_Attributes true true false false.
Proof.
  unfold Schema. simpl. intros Hin.
  repeat (destruct Hin as [Heq|Hin];
          [first [discriminate Heq | now injection Heq as <-]|]).
  destruct Hin.
Qed.

Lemma Schema_has_timeouts :
  In ("timeouts", timeouts_Attributes true true false false) Schema.
Proof. unfold Schema. simpl. do 8 right. now left. Qed.

(** A snapshot source together with a block size. *)
Lemma ValidateConfig_snapshot_with_block_size (rt : Runtime)
    (config : imageResourceModel) :
  types.IsNull (SourceSnapshotID config) = false ->
  types.IsNull (BlockSize config) = false ->
  types.IsUnknown (BlockSize config) = false ->
  In (schemavalidator.InvalidAttributeCombinationDiagnostic
        "source_snapshot_id"
        ("Attribute " ++ fmt_q "block_size" ++ " cannot be specified when "
           ++ fmt_q "source_snapshot_id" ++ " is specified"))
     (ValidateConfig rt Schema config).
Proof.
  intros Es Eb Ub.
  eapply ValidateConfig_In with
    (path := "source_snapshot_id") (v := schema.ConflictsWith ["block_size"]).
  - unfold Schema. simpl. do 6 right. left. reflexivity.
  - reflexivity.
  - simpl. right. left. reflexivity.
  - simpl. unfold schemavalidator.ConflictsWith. simpl.
    rewrite Es, Ub, Eb. simpl. left. reflexivity.
Qed.

(** A configuration with known or null sources and block size has one of
    the two accepted shapes, or the validators report an error. *)
Lemma ValidateConfig_known (rt : Runtime) (config : imageResourceModel) :
  types.IsUnknown (SourceSnapshotID config) = false ->
  types.IsUnknown (SourceURL config) = false ->
  types.IsUnknown (BlockSize config) = false ->
  ((types.IsNull (SourceSnapshotID config) = false
    /\ types.IsNull (SourceURL config) = true
    /\ types.IsNull (BlockSize config) = true)
   \/ (types.IsNull (SourceSnapshotID config) = true
       /\ types.IsNull (SourceURL config) = false
       /\ types.IsNull (BlockSize config) = false))
  \/ diag.HasError (ValidateConfig rt Schema config) = true.
Proof.
  intros Us Uu Ub.
  destruct (SourceSnapshotID config) as [| |s] eqn:S; try discriminate;
    destruct (SourceURL config) as [| |u] eqn:U; try discriminate;
    destruct (BlockSize config) as [| |b] eqn:B; try discriminate;
    simpl; auto;
    right.
  - eapply HasError_In; [now apply ValidateConfig_no_source | reflexivity].
  - eapply HasError_In; [now apply ValidateConfig_no_source | reflexivity].
  - eapply HasError_In;
      [apply ValidateConfig_url_without_block_size; [now rewrite U | exact B]
      | reflexivity].
  - eapply HasError_In;
      [apply ValidateConfig_snapshot_with_block_size;
       [now rewrite S | now rewrite B | now rewrite B]
      | reflexivity].
  - eapply HasError_In;
      [now apply ValidateConfig_both_sources with s u | reflexivity].
  - eapply HasError_In;
      [now apply ValidateConfig_both_sources with s u | reflexivity].
Qed.

(** ** What the validators accept *)

(** X13. A configuration whose two sources and block size are known or
    null passes the validators of the schema exactly when it has the
    snapshot source alone, without block size, or the URL source alone,
    with a block size, and each of the [create] and [read] timeouts it
    sets parses as a duration. *)
Theorem ValidateConfig_accepts (rt : Runtime) (config : imageResourceModel) :
  types.IsUnknown (SourceSnapshotID config) = false ->
  types.IsUnknown (SourceURL config) = false ->
  types.IsUnknown (BlockSize config) = false ->
  diag.HasError (ValidateConfig rt Schema config) = false
  <-> ((types.IsNull (SourceSnapshotID config) = false
        /\ types.IsNull (SourceURL config) = true
        /\ types.IsNull (BlockSize config) = true)
       \/ (types.IsNull (SourceSnapshotID config) = true
           /\ types.IsNull (SourceURL config) = false
           /\ types.IsNull (BlockSize config) = false))
      /\ (forall name value,
            name = "create" \/ name = "read" ->
            timeouts.lookup name (timeouts.Attributes (Timeouts config))
            = Some (types.Known value) ->
            exists duration, ParseDuration rt value = inl duration).
Proof.
  intros Us Uu Ub. split.
  - intros V. split.
    + destruct (ValidateConfig_known rt config Us Uu Ub) as [Hshape|Herr];
        [exact Hshape | congruence].
    + intros name value Hname L.
      destruct (ParseDuration rt value) as [duration|message] eqn:P;
        [now exists duration|].
      assert (Hin :
        In (diag.NewAttributeErrorDiagnostic ("timeouts." ++ name)
              "Invalid Attribute Value Time Duration"
              (fmt_q value ++ " "
                 ++ schemavalidator.TimeDuration_Description))
           (ValidateConfig rt Schema config)).
      { apply ValidateConfig_In_attribute with (1 := Schema_has_timeouts).
        apply Schema_timeouts_attribute. now exists name, value, message. }
      rewrite (HasError_In _ _ Hin eq_refl) in V. discriminate.
  - intros [Hshape Htimeouts].
    destruct (diag.HasError (ValidateConfig rt Schema config)) eqn:V;
      [|reflexivity].
    apply HasError_exists in V as [d [Hd _]].
    apply ValidateConfig_In_inv in Hd as (path & a & Hin & Hd).
    destruct (string_dec path "timeouts") as [->|Nt].
    { rewrite (Schema_timeouts_entry Hin) in Hd.
      apply Schema_timeouts_attribute in Hd
        as (name & value & message & Hname & L & P & _).
      destruct (Htimeouts name value Hname L) as [duration P'].
      congruence. }
    destruct (string_dec path "source_snapshot_id") as [Es|Ns];
      [|destruct (string_dec path "source_url") as [Eu|Nu]].
    + destruct (Schema_source_attributes rt config Hin (or_introl Es))
        as (_ & Hquiet & _).
      rewrite Hquiet in Hd by assumption. destruct Hd.
    + destruct (Schema_source_attributes rt config Hin (or_intror Eu))
        as (_ & Hquiet & _).
      rewrite Hquiet in Hd by assumption. destruct Hd.
    + rewrite (Schema_quiet_attributes rt config Hin) in Hd by assumption.
      destruct Hd.
Qed.

Lemma ValidateConfig_accepts_witness :
  diag.HasError (ValidateConfig example.rt Schema example.from_snapshot)
  = false
  /\ diag.HasError
       (ValidateConfig example.rt Schema example.from_url_read_timeout)
     = false.
Proof.
  split.
  - apply (proj2 (@ValidateConfig_accepts example.rt example.from_snapshot
                    eq_refl eq_refl eq_refl)).
    split; [left; repeat split|].
    intros name value _ L. discriminate L.
  - apply (proj2 (@ValidateConfig_accepts example.rt
                    example.from_url_read_timeout eq_refl eq_refl eq_refl)).
    split; [right; repeat split|].
    intros name value [-> | ->] L; simpl in L.
    + discriminate L.
    + injection L as <-. now exists 1200000000000.
Defined.

(** What the validation reports, in every case. *)
Lemma ValidateConfig_form (rt : Runtime) (config : imageResourceModel)
    (d : diag.Diagnostic) :
  In d (ValidateConfig rt Schema config) ->
  (exists path a,
     In (path, a) Schema
     /\ (path = "source_snapshot_id" \/ path = "source_url")
     /\ In d (AttributeValidate rt config path a))
  \/ In d (AttributeValidate rt config "timeouts"
             (timeouts_Attributes true true false false)).
Proof.
  intros Hd.
  apply ValidateConfig_In_inv in Hd as (path & a & Hin & Hd).
  destruct (string_dec path "timeouts") as [->|Nt].
  { right. now rewrite <- (Schema_timeouts_entry Hin). }
  destruct (string_dec path "source_snapshot_id") as [Es|Ns];
    [|destruct (string_dec path "source_url") as [Eu|Nu]].
  - left. exists path, a. auto.
  - left. exists path, a. auto.
  - rewrite (Schema_quiet_attributes rt config Hin) in Hd by assumption.
    destruct Hd.
Qed.

(** X14. Validation of the sources waits for unknown values: with
    [block_size] unknown and one of the two sources unknown, the
    validators report nothing about the sources; whatever they report
    is a timeout that does not parse as a duration. *)
Theorem ValidateConfig_unknown_delays (rt : Runtime)
    (config : imageResourceModel) (d : diag.Diagnostic) :
  BlockSize config = types.Unknown ->
  SourceSnapshotID config = types.Unknown
  \/ SourceURL config = types.Unknown ->
  In d (ValidateConfig rt Schema config) ->
  diag.Summary d = "Invalid Attribute Value Time Duration"
  /\ (diag.Path d = Some "timeouts.create"
      \/ diag.Path d = Some "timeouts.read").
Proof.
  intros Hb Hs Hd.
  apply ValidateConfig_form in Hd as [(path & a & Hin & Hpath & Hd)|Hd].
  - destruct (Schema_source_attributes rt config Hin Hpath)
      as (_ & _ & Hdelay).
    rewrite Hdelay in Hd by assumption. destruct Hd.
  - apply Schema_timeouts_attribute in Hd
      as (name & value & message & [-> | ->] & _ & _ & ->); simpl; auto.
Qed.

Lemma ValidateConfig_unknown_delays_witness :
  ValidateConfig example.rt Schema example.unknown_url_bad_timeout
  = [diag.NewAttributeErrorDiagnostic "timeouts.create"
       "Invalid Attribute Value Time Duration"
       (fmt_q "soon" ++ " " ++ schemavalidator.TimeDuration_Description)]
  /\ (diag.Path
        (diag.NewAttributeErrorDiagnostic "timeouts.create"
           "Invalid Attribute Value Time Duration"
           (fmt_q "soon" ++ " " ++ schemavalidator.TimeDuration_Description))
      = Some "timeouts.create"
      \/ diag.Path
           (diag.NewAttributeErrorDiagnostic "timeouts.create"
              "Invalid Attribute Value Time Duration"
              (fmt_q "soon" ++ " "
                 ++ schemavalidator.TimeDuration_Description))
         = Some "timeouts.read").
Proof.
  split; [reflexivity|].
  apply (@ValidateConfig_unknown_delays example.rt
           example.unknown_url_bad_timeout
           (diag.NewAttributeErrorDiagnostic "timeouts.create"
              "Invalid Attribute Value Time Duration"
              (fmt_q "soon" ++ " "
                 ++ schemavalidator.TimeDuration_Description))
           eq_refl (or_intror eq_refl)).
  left. reflexivity.
Defined.

(** X15. Whatever the configuration, the validators of the schema only
    ever report errors of two kinds: "Invalid Attribute Combination" at
    [source_snapshot_id] or [source_url], and "Invalid Attribute Value
    Time Duration" at [timeouts.create] or [timeouts.read].  Every path
    expression of the schema names an attribute, so no "Invalid Path
    Expression" diagnostic can come out. *)
Theorem ValidateConfig_diagnostics (rt : Runtime)
    (config : imageResourceModel) (d : diag.Diagnostic) :
  In d (ValidateConfig rt Schema config) ->
  diag.IsError d = true
  /\ ((diag.Summary d = "Invalid Attribute Combination"
       /\ (diag.Path d = Some "source_snapshot_id"
           \/ diag.Path d = Some "source_url"))
      \/ (diag.Summary d = "Invalid Attribute Value Time Duration"
          /\ (diag.Path d = Some "timeouts.create"
              \/ diag.Path d = Some "timeouts.read"))).
Proof.
  intros Hd.
  apply ValidateConfig_form in Hd as [(path & a & Hin & Hpath & Hd)|Hd].
  - destruct (Schema_source_attributes rt config Hin Hpath) as (Hform & _).
    destruct (Hform d Hd) as (He & Hs & Hp).
    split; [exact He|]. left. split; [exact Hs|].
    destruct Hpath as [-> | ->]; auto.
  - apply Schema_timeouts_attribute in Hd
      as (name & value & message & [-> | ->] & _ & _ & ->); simpl; auto.
Qed.

Lemma ValidateConfig_diagnostics_witness :
  diag.IsError
    (schemavalidator.InvalidAttributeCombinationDiagnostic "source_url"
       ("Attribute " ++ fmt_q "block_size" ++ " must be specified when "
          ++ fmt_q "source_url" ++ " is specified"))
  = true.
Proof.
  apply (@ValidateConfig_diagnostics example.rt
           example.from_url_no_block_size).
  simpl. left. reflexivity.
Defined.

(** X16. Validation and Create fit together: for a plan that passes the
    validators (sources and block size known or null), Create on a
    response without error and with a well-formed create timeout makes
    exactly one create call, and its source is the snapshot with block
    size 0 or the URL with the block size of the plan; the block size 0
    that Create substitutes for a null [block_size] is never sent with a
    URL source. *)
Theorem Create_validated_plan (rt : Runtime) (r : imageResource rt)
    (req : CreateRequest) (resp0 : Response) :
  types.IsUnknown (SourceSnapshotID (CreateRequest_Plan req)) = false ->
  types.IsUnknown (SourceURL (CreateRequest_Plan req)) = false ->
  types.IsUnknown (BlockSize (CreateRequest_Plan req)) = false ->
  diag.HasError (ValidateConfig rt Schema (CreateRequest_Plan req)) = false ->
  diag.HasError (Diagnostics resp0) = false ->
  snd (timeouts.Create rt (Timeouts (CreateRequest_Plan req))
         (defaultTimeout rt)) = [] ->
  exists params,
    remote (run (Create r req) resp0) = [CallImageCreate params]
    /\ ((exists snapshot,
           SourceSnapshotID (CreateRequest_Plan req) = types.Known snapshot
           /\ oxide.ImageCreate_Source (oxide.Body params)
              = {| oxide.ImageSource_Id := snapshot;
                   oxide.ImageSource_Type := oxide.ImageSourceTypeSnapshot;
                   oxide.ImageSource_BlockSize := 0 |})
        \/ (exists url blockSize,
              SourceURL (CreateRequest_Plan req) = types.Known url
              /\ BlockSize (CreateRequest_Plan req) = types.Known blockSize
              /\ oxide.ImageSource_Id
                   (oxide.ImageCreate_Source (oxide.Body params)) = url
              /\ oxide.ImageSource_BlockSize
                   (oxide.ImageCreate_Source (oxide.Body params))
                 = blockSize
              /\ oxide.ImageSource_Type
                   (oxide.ImageCreate_Source (oxide.Body params))
                 <> oxide.ImageSourceTypeSnapshot)).
Proof.
  intros Us Uu Ub V E T.
  destruct (ValidateConfig_known rt _ Us Uu Ub) as [Hshape|Herr];
    [|congruence].
  destruct Hshape as [[Ns [Nu Nb]]|[Ns [Nu Nb]]].
  - rewrite Create_from_snapshot by assumption.
    eexists. split; [reflexivity|]. left.
    destruct (SourceSnapshotID (CreateRequest_Plan req)) as [| |s] eqn:S;
      try discriminate.
    exists s. split; [reflexivity|].
    unfold Create_source_snapshot. simpl. now rewrite S.
  - rewrite Create_from_url by assumption.
    eexists. split; [reflexivity|]. right.
    destruct (SourceURL (CreateRequest_Plan req)) as [| |u] eqn:U;
      try discriminate.
    destruct (BlockSize (CreateRequest_Plan req)) as [| |b] eqn:B;
      try discriminate.
    exists u, b. unfold Create_source_url. simpl. rewrite U, B. simpl.
    repeat split.
    destruct (u =? "you_can_boot_anything_as_long_as_its_alpine")%string;
      discriminate.
Qed.

Lemma Create_validated_plan_witness :
  exists params,
    remote (run (Create example.working
                   {| CreateRequest_Plan := example.from_url |})
              example.fresh) = [CallImageCreate params]
    /\ oxide.ImageSource_BlockSize
         (oxide.ImageCreate_Source (oxide.Body params)) = 512.
Proof.
  destruct (@Create_validated_plan example.rt example.working
              {| CreateRequest_Plan := example.from_url |} example.fresh
              eq_refl eq_refl eq_refl eq_refl eq_refl eq_refl)
    as (params & Hr & [(s & Hs & _)|(u & b & _ & Hb & _ & Hbs & _)]).
  - discriminate Hs.
  - exists params. split; [exact Hr|].
    rewrite Hbs. now injection Hb as <-.
Defined.

(** ** When a plan requires replacement *)

Lemma RequiresReplace_inv (s : schema.Schema) (plan state : imageResourceModel)
    (name : string) :
  In name (RequiresReplace s plan state) ->
  exists a, In (name, a) s /\ AttributeModifyPlan plan state name a = true.
Proof.
  unfold RequiresReplace. intros H.
  apply in_map_iff in H as [[path a] [<- H]].
  apply filter_In in H as [Hin Hm]. now exists a.
Qed.

(** The converse of [String_changed] and [Int64_changed]. *)
Lemma String_changed_inv (v w : types.Value string) :
  negb (types.StringEqual v w) = true ->
  Some (attr.String v) <> Some (attr.String w).
Proof.
  intros H E. injection E as ->.
  rewrite (proj2 (StringEqual_eq w w) eq_refl) in H. discriminate.
Qed.

Lemma Int64_changed_inv (v w : types.Int64) :
  negb (types.Int64Equal v w) = true ->
  Some (attr.Int64 v) <> Some (attr.Int64 w).
Proof.
  intros H E. injection E as ->.
  rewrite (proj2 (Int64Equal_eq w w) eq_refl) in H. discriminate.
Qed.

(** X17. A plan requires replacement at a path exactly when the path is
    one of the eight attributes the user sets and the planned value
    differs from the value in the state.  A plan that differs from the
    state only in [timeouts] or in computed attributes requires no
    replacement. *)
Theorem RequiresReplace_exactly (plan state : imageResourceModel)
    (name : string) :
  In name (RequiresReplace Schema plan state)
  <-> In name ["name"; "project_id"; "description"; "os"; "version";
               "block_size"; "source_snapshot_id"; "source_url"]
      /\ GetAttribute plan name <> GetAttribute state name.
Proof.
  split.
  - intros H. apply RequiresReplace_inv in H as [a [Hin Hm]].
    unfold Schema in Hin. simpl in Hin.
    repeat (destruct Hin as [Heq|Hin];
            [injection Heq as <- <-;
             unfold AttributeModifyPlan, timeouts_Attributes in Hm;
             simpl in Hm;
             first
               [ discriminate Hm
               | rewrite orb_false_r in Hm;
                 split; [simpl; tauto|];
                 simpl;
                 first [apply String_changed_inv | apply Int64_changed_inv];
                 exact Hm ]|]).
    destruct Hin.
  - intros [Hname Hdiff]. simpl in Hname.
    repeat (destruct Hname as [<-|Hname];
            [eapply RequiresReplace_In; [reflexivity|];
             unfold AttributeModifyPlan; simpl in Hdiff |- *;
             first [rewrite String_changed by exact Hdiff
                   |rewrite Int64_changed by exact Hdiff];
             reflexivity|]).
    destruct Hname.
Qed.

Lemma RequiresReplace_exactly_witness :
  ~ In "timeouts"
      (RequiresReplace Schema
         {| BlockSize := types.Null;
            Description := types.Known "an alpine image";
            Digest := types.Unknown;
            ID := types.Unknown;
            Name := types.Known "alpine";
            OS := types.Known "alpine";
            ProjectID := types.Known "9d2c6f1b";
            Size := types.Unknown;
            SourceSnapshotID := types.Known "c0ffee11";
            SourceURL := types.Null;
            TimeCreated := types.Unknown;
            TimeModified := types.Unknown;
            Version := types.Known "3.15";
            Timeouts := types.Known [("read", types.Known "20m")] |}
         example.recorded)
  /\ In "source_url"
       (RequiresReplace Schema example.from_url example.recorded).
Proof.
  split.
  - intros H. apply RequiresReplace_exactly in H as [Hname _].
    simpl in Hname.
    repeat (destruct Hname as [Hname|Hname]; [discriminate Hname|]).
    destruct Hname.
  - apply RequiresReplace_exactly. split.
    + simpl. tauto.
    + simpl. discriminate.
Defined.

(** ** The provider configuration *)

(** X18. Without a [host] in the provider block the host is the value of
    [OXIDE_HOST] if that is not empty, else the value of
    [OXIDE_TEST_HOST] if that is not empty, else
    "http://127.0.0.1:12220".  It is then never empty, so
    [newProviderMeta] does not stop on the host; it fails with "token
    must not be empty" when the token resolves to the empty string. *)
Theorem provider_default_host (d : provider.ResourceData) :
  provider.config d "host" = None ->
  provider.Get d "host" <> EmptyString
  /\ (provider.Getenv d "OXIDE_HOST" <> EmptyString ->
      provider.Get d "host" = provider.Getenv d "OXIDE_HOST")
  /\ (provider.Getenv d "OXIDE_HOST" = EmptyString ->
      provider.Getenv d "OXIDE_TEST_HOST" <> EmptyString ->
      provider.Get d "host" = provider.Getenv d "OXIDE_TEST_HOST")
  /\ (provider.Getenv d "OXIDE_HOST" = EmptyString ->
      provider.Getenv d "OXIDE_TEST_HOST" = EmptyString ->
      provider.Get d "host" = provider.defaultHost)
  /\ (forall (C E : Type) (Errorf : string -> E)
        (NewClient : string -> string -> string -> C + E),
        provider.Get d "token" = EmptyString ->
        provider.newProviderMeta Errorf NewClient d
        = inr (Errorf "token must not be empty")).
Proof.
  intros Hc.
  assert (G : provider.Get d "host"
              = provider.MultiEnvDefaultFunc (provider.Getenv d)
                  ["OXIDE_HOST"; "OXIDE_TEST_HOST"] provider.defaultHost).
  { unfold provider.Get. now rewrite Hc. }
  assert (N : provider.Get d "host" <> EmptyString).
  { rewrite G. simpl.
    destruct (String.eqb_spec (provider.Getenv d "OXIDE_HOST") EmptyString);
      simpl; [|assumption].
    destruct (String.eqb_spec (provider.Getenv d "OXIDE_TEST_HOST")
                EmptyString); simpl; [discriminate | assumption]. }
  split; [exact N|]. rewrite G. simpl.
  split; [|split; [|split]].
  - intros H. apply String.eqb_neq in H. now rewrite H.
  - intros -> H. apply String.eqb_neq in H. now rewrite H.
  - now intros -> ->.
  - intros C E Errorf NewClient Ht. unfold provider.newProviderMeta.
    apply String.eqb_neq in N. rewrite N, Ht. reflexivity.
Qed.

Lemma provider_default_host_witness :
  provider.Get provider_example.bare "host" = "http://127.0.0.1:12220"
  /\ provider.newProviderMeta provider_example.Errorf
       provider_example.NewClient provider_example.bare
     = inr "token must not be empty".
Proof.
  destruct (@provider_default_host provider_example.bare eq_refl)
    as (_ & _ & _ & Hd & Ht).
  split.
  - apply Hd; reflexivity.
  - apply Ht. reflexivity.
Defined.

(** X19. [newProviderMeta] returns a client only when the resolved host
    and token are both not empty, and the client is then the one the
    SDK's constructor builds from the token, the user agent
    "terraform-provider-oxide" and the host, in that order; a token that
    the provider block does not set comes from [OXIDE_TOKEN] or
    [OXIDE_TEST_TOKEN]. *)
Theorem newProviderMeta_client (C E : Type) (Errorf : string -> E)
    (NewClient : string -> string -> string -> C + E)
    (d : provider.ResourceData) (c : C) :
  provider.newProviderMeta Errorf NewClient d = inl c ->
  provider.Get d "host" <> EmptyString
  /\ provider.Get d "token" <> EmptyString
  /\ NewClient (provider.Get d "token") "terraform-provider-oxide"
       (provider.Get d "host") = inl c
  /\ (provider.config d "token" = None ->
      provider.Getenv d "OXIDE_TOKEN" <> EmptyString
      \/ provider.Getenv d "OXIDE_TEST_TOKEN" <> EmptyString).
Proof.
  unfold provider.newProviderMeta.
  destruct (String.eqb_spec (provider.Get d "host") EmptyString) as [H|H];
    [discriminate|].
  destruct (String.eqb_spec (provider.Get d "token") EmptyString) as [T|T];
    [discriminate|].
  intros Hc. repeat split; try assumption.
  intros Hn. unfold provider.Get in T. rewrite Hn in T. simpl in T.
  destruct (String.eqb_spec (provider.Getenv d "OXIDE_TOKEN") EmptyString);
    [|now left].
  destruct (String.eqb_spec (provider.Getenv d "OXIDE_TEST_TOKEN")
              EmptyString); [|now right].
  simpl in T. now elim T.
Qed.

Lemma newProviderMeta_client_witness :
  provider_example.NewClient
    (provider.Get provider_example.configured_host "token")
    "terraform-provider-oxide"
    (provider.Get provider_example.configured_host "host")
  = inl ("oxide-token-1234", "terraform-provider-oxide",
         "https://oxide.example").
Proof.
  apply (@newProviderMeta_client _ _ provider_example.Errorf
           provider_example.NewClient provider_example.configured_host).
  reflexivity.
Defined.
